(** * A shallow embedding of the weather and trip-planning agent

    The development follows the three Python modules of the repository:

    - [travel_server.py]: the planning engine ([classify_weather], the
      [suggest_restaurants] and [create_itinerary] branches of [call_tool]);
    - [server.py]: the weather tool server ([build_url], [call_tool]);
    - [app.py]: the chat front end ([stream_tool_response] and the walk over
      the agent's transcript in [main]).

    Python values are modelled as follows.  A [str] is the list of its code
    points; a number is a Python [int] or a binary64 [float]; a [dict] with
    string keys read through a fixed set of keys is a record of optional
    fields; the read-only restaurant table is a finite map; exceptions are
    values of a sum type, and the single effect of the weather server (an HTTP
    GET) is a node of a small tree of interactions. *)

From Stdlib Require Import ZArith NArith String Ascii PrimFloat Uint63 Lia.
From Stdlib Require Import DecimalPos.
From stdpp Require Import base tactics option list gmap.

(** ** Python strings *)

(** A Python [str] is a sequence of Unicode code points: [len] counts them and
    slicing cuts between them. *)
Abbreviation pystr := (list N).

(** Source literals are written as Rocq strings, whose bytes are the UTF-8
    encoding of the literal; [utf8_points] reads the code points back.
    [acc] holds the bits read so far of a multi-byte sequence and [pending]
    the number of continuation bytes still expected. *)
Fixpoint utf8_points (acc : N) (pending : nat) (bs : list N) : pystr :=
  match bs with
  | [] => []
  | b :: bs' =>
      if (b <? 128)%N then b :: utf8_points 0 0 bs'
      else if (b <? 192)%N then
        let acc' := (acc * 64 + (b - 128))%N in
        match pending with
        | 0 => utf8_points 0 0 bs'
        | 1 => acc' :: utf8_points 0 0 bs'
        | S k => utf8_points acc' k bs'
        end
      else if (b <? 224)%N then utf8_points (b - 192) 1 bs'
      else if (b <? 240)%N then utf8_points (b - 224) 2 bs'
      else utf8_points (b - 240) 3 bs'
  end.

Definition py (s : string) : pystr :=
  utf8_points 0 0 (N_of_ascii <$> list_ascii_of_string s).
#[global] Arguments py : simpl never.

(** [str.lower()].  The letters [A-Z] are mapped to [a-z]; every other code
    point is kept, which is what [str.lower] does on ASCII text and on
    caseless characters. *)
Definition lower_char (c : N) : N :=
  if (65 <=? c)%N && (c <=? 90)%N then (c + 32)%N else c.

Definition lower (s : pystr) : pystr := lower_char <$> s.

(** [str.upper()], with the same reading; it is used only to state that the
    classification does not depend on the case of the letters. *)
Definition upper_char (c : N) : N :=
  if (97 <=? c)%N && (c <=? 122)%N then (c - 32)%N else c.

Definition upper (s : pystr) : pystr := upper_char <$> s.

(** [s.startswith(sub)] and the substring test [sub in s]. *)
Fixpoint starts_with (sub s : pystr) : bool :=
  match sub, s with
  | [], _ => true
  | _ :: _, [] => false
  | a :: sub', b :: s' => (a =? b)%N && starts_with sub' s'
  end.

Fixpoint contains (sub s : pystr) : bool :=
  starts_with sub s ||
  match s with
  | [] => false
  | _ :: s' => contains sub s'
  end.

(** ** Python numbers *)

(** A JSON number reaches the handlers as an [int] or as a [float]. *)
Inductive number : Type :=
  | Int (z : Z)
  | Float (f : float).

(** The float a small non-negative integer literal is compared as. *)
Definition float_of_literal (k : Z) : float := PrimFloat.of_uint63 (Uint63.of_Z k).

(** [t < k] and [t > k] for an integer literal [k]: exact on [int], IEEE 754
    on [float] (every comparison with a NaN is false). *)
Definition num_ltb (t : number) (k : Z) : bool :=
  match t with
  | Int z => (z <? k)%Z
  | Float f => PrimFloat.ltb f (float_of_literal k)
  end.

Definition num_gtb (t : number) (k : Z) : bool :=
  match t with
  | Int z => (k <? z)%Z
  | Float f => PrimFloat.ltb (float_of_literal k) f
  end.

(** ** travel_server.py: the planning engine *)

(** The seven strings [classify_weather] returns. *)
Inductive category : Type :=
  | rain | snow | sunny | hot | cold | mild | partly_cloudy.

Definition category_str (c : category) : pystr :=
  match c with
  | rain => py "rain"
  | snow => py "snow"
  | sunny => py "sunny"
  | hot => py "hot"
  | cold => py "cold"
  | mild => py "mild"
  | partly_cloudy => py "partly_cloudy"
  end.

#[global] Instance category_eq_dec : EqDecision category.
Proof. solve_decision. Defined.

(** [classify_weather(weather_condition, temp)] *)
Definition classify_weather (weather_condition : pystr) (temp : number) : category :=
  let condition_lower := lower weather_condition in
  if contains (py "rain") condition_lower || contains (py "pioggia") condition_lower
  then rain
  else if contains (py "snow") condition_lower || contains (py "neve") condition_lower
  then snow
  else if contains (py "sunny") condition_lower
          || contains (py "clear") condition_lower
          || contains (py "sereno") condition_lower
  then (if num_gtb temp 28 then hot else sunny)
  else if num_ltb temp 5 then cold
  else if num_ltb temp 18 then mild
  else partly_cloudy.

(** *** What it means for a text to mention a term

    A text mentions a term when some stretch of it is the term up to the case
    of its letters.  The three families of terms the classifier looks for: *)
Definition mentions (kw c : pystr) : Prop :=
  ∃ pre w post, c = pre ++ w ++ post ∧ lower w = kw.

Definition rain_terms : list pystr := [py "rain"; py "pioggia"].
Definition snow_terms : list pystr := [py "snow"; py "neve"].
Definition clear_terms : list pystr := [py "sunny"; py "clear"; py "sereno"].

Definition mentions_any (terms : list pystr) (c : pystr) : Prop :=
  ∃ kw, kw ∈ terms ∧ mentions kw c.

Definition keyword_free (c : pystr) : Prop :=
  ¬ mentions_any rain_terms c ∧ ¬ mentions_any snow_terms c ∧ ¬ mentions_any clear_terms c.

(** The fallback as the specification words it: [>28] hot, [<5] cold, [<18]
    mild, else partly cloudy. *)
Definition fallback_as_claimed (temp : number) : category :=
  if num_gtb temp 28 then hot
  else if num_ltb temp 5 then cold
  else if num_ltb temp 18 then mild
  else partly_cloudy.

(** The boolean tests of [classify_weather], named for the proofs. *)
Definition has_any (terms : list pystr) (c : pystr) : bool :=
  existsb (λ kw, contains kw (lower c)) terms.

(** ** Exceptions and results *)

(** The exceptions the modelled code can raise.  [HTTPStatusError] carries its
    [str()], the status code and what the [except] clause of the weather
    server reads from the body: [None] when the body is not JSON or has no
    ["error"] entry, [Some None] when the entry has no ["message"],
    [Some (Some m)] otherwise.  [OtherError] is any other exception (a network
    failure, a timeout, a body of an unexpected shape), with its [str()]. *)
Inductive exn : Type :=
  | KeyError (key : pystr)
  | IndexError
  | ValueError (msg : pystr)
  | HTTPStatusError (msg : pystr) (status_code : Z) (error : option (option pystr))
  | OtherError (msg : pystr).

Inductive res (A : Type) : Type :=
  | Ok (a : A)
  | Raise (e : exn).
Arguments Ok {A} a.
Arguments Raise {A} e.

#[global] Instance res_ret : MRet res := λ A a, Ok a.
#[global] Instance res_bind : MBind res := λ A B f r,
  match r with
  | Ok a => f a
  | Raise e => Raise e
  end.

(** The line feed of the source's ["\n"]. *)
Definition nl : pystr := [10%N].

(** [str(n)] for an [int]: a minus sign for a negative number, then the
    decimal digits.  The integers printed are counters, status codes and
    numbers that [int()] or the JSON decoder of the same interpreter has
    read, which it prints in full: its limit on digits is the same in both
    directions. *)
Fixpoint uint_digits (d : Decimal.uint) : pystr :=
  match d with
  | Decimal.Nil => []
  | Decimal.D0 d' => 48%N :: uint_digits d'
  | Decimal.D1 d' => 49%N :: uint_digits d'
  | Decimal.D2 d' => 50%N :: uint_digits d'
  | Decimal.D3 d' => 51%N :: uint_digits d'
  | Decimal.D4 d' => 52%N :: uint_digits d'
  | Decimal.D5 d' => 53%N :: uint_digits d'
  | Decimal.D6 d' => 54%N :: uint_digits d'
  | Decimal.D7 d' => 55%N :: uint_digits d'
  | Decimal.D8 d' => 56%N :: uint_digits d'
  | Decimal.D9 d' => 57%N :: uint_digits d'
  end.

Definition str_of_Z (n : Z) : pystr :=
  match Z.to_int n with
  | Decimal.Pos d => uint_digits d
  | Decimal.Neg d => 45%N :: uint_digits d
  end.

(** [str(e)].  A [KeyError] shows the [repr] of its key, which for the keys
    of the source (plain identifiers) is the key between single quotes. *)
Definition exn_str (e : exn) : pystr :=
  match e with
  | KeyError key => py "'" ++ key ++ py "'"
  | IndexError => py "list index out of range"
  | ValueError msg => msg
  | HTTPStatusError msg _ _ => msg
  | OtherError msg => msg
  end.

(** [arguments[key]] on a dictionary read as a record of optional fields. *)
Definition subscript {A} (key : string) (field : option A) : res A :=
  match field with
  | Some v => Ok v
  | None => Raise (KeyError (py key))
  end.

(** The clause [except Exception as e] of the travel server's [call_tool]. *)
Definition travel_except (r : res pystr) : pystr :=
  match r with
  | Ok text => text
  | Raise e => py "Errore: " ++ exn_str e
  end.

(** *** The restaurant table *)

Record restaurant : Type := {
  r_name : pystr;
  r_type : pystr;
  r_price : pystr;
  r_specialty : pystr
}.

#[global] Instance restaurant_eq_dec : EqDecision restaurant.
Proof. solve_decision. Defined.

Definition RESTAURANTS_DB : gmap pystr (list restaurant) :=
  list_to_map [
    (py "Milano", [
       {| r_name := py "Trattoria Milanese"; r_type := py "tradizionale";
          r_price := py "€€"; r_specialty := py "Cucina milanese" |};
       {| r_name := py "Luini"; r_type := py "street_food";
          r_price := py "€"; r_specialty := py "Panzerotti" |};
       {| r_name := py "Eataly Smeraldo"; r_type := py "food_hall";
          r_price := py "€€"; r_specialty := py "Prodotti italiani" |} ]);
    (py "Roma", [
       {| r_name := py "Roscioli"; r_type := py "bistrot";
          r_price := py "€€€"; r_specialty := py "Cucina romana" |};
       {| r_name := py "Trapizzino"; r_type := py "street_food";
          r_price := py "€"; r_specialty := py "Trapizzini" |} ]);
    (py "default", [
       {| r_name := py "Ristorante Locale"; r_type := py "tradizionale";
          r_price := py "€€"; r_specialty := py "Cucina locale" |} ])
  ].

(** *** The [suggest_restaurants] branch of [call_tool] *)

(** The arguments as the tool's [inputSchema] types them. *)
Record restaurants_arguments : Type := {
  ra_location : option pystr;
  ra_meal_type : option pystr;
  ra_cuisine_type : option pystr;
  ra_budget : option pystr
}.

(** [RESTAURANTS_DB.get(location, RESTAURANTS_DB["default"])] *)
Definition restaurants_at (location : pystr) : res (list restaurant) :=
  fallback ← subscript "default" (RESTAURANTS_DB !! py "default");
  Ok (default fallback (RESTAURANTS_DB !! location)).

(** [[r for r in restaurants if r["price"] == budget or budget == "€€"]] *)
Definition budget_filter (budget : pystr) (restaurants : list restaurant) : list restaurant :=
  filter (λ r, r_price r = budget ∨ budget = py "€€") restaurants.

(** One numbered block of the answer; [i] is the rank, counted from 1. *)
Definition restaurant_block (i : nat) (r : restaurant) : pystr :=
  str_of_Z (Z.of_nat i) ++ py ". **" ++ r_name r ++ py "**" ++ nl
  ++ py "   - Tipo: " ++ r_type r ++ nl
  ++ py "   - Specialità: " ++ r_specialty r ++ nl
  ++ py "   - Prezzo: " ++ r_price r ++ nl ++ nl.

(** The text built for the restaurants [shown] (those of [filtered[:3]]). *)
Definition restaurants_text (location meal_type budget : pystr) (shown : list restaurant) : pystr :=
  let result := py "**Ristoranti consigliati a " ++ location ++ py "**" ++ nl ++ nl in
  let result := result ++ py "🍽️ Pasto: " ++ meal_type ++ nl in
  let result := result ++ py "💰 Budget: " ++ budget ++ nl ++ nl in
  result ++ mjoin (imap (λ i r, restaurant_block (S i) r) shown).

Definition suggest_restaurants_body (arguments : restaurants_arguments) : res pystr :=
  location ← subscript "location" (ra_location arguments);
  let meal_type := default (py "lunch") (ra_meal_type arguments) in
  let cuisine_type := default (py "tradizionale") (ra_cuisine_type arguments) in
  let budget := default (py "€€") (ra_budget arguments) in
  restaurants ← restaurants_at location;
  let filtered := budget_filter budget restaurants in
  Ok (restaurants_text location meal_type budget (take 3 filtered)).

Definition suggest_restaurants (arguments : restaurants_arguments) : pystr :=
  travel_except (suggest_restaurants_body arguments).

(** *** The [create_itinerary] branch of [call_tool] *)

Record itinerary_arguments : Type := {
  ia_location : option pystr;
  ia_activities : option (list pystr);
  ia_restaurants : option (list pystr);
  ia_start_time : option pystr
}.

(** The third component of a timeline tuple: ["activity"] or ["restaurant"]. *)
Inductive slot_type : Type := activity_slot | restaurant_slot.

#[global] Instance slot_type_eq_dec : EqDecision slot_type.
Proof. solve_decision. Defined.

Record slot : Type := {
  slot_time : pystr;
  slot_item : pystr;
  slot_kind : slot_type
}.

Definition times : list pystr :=
  [py "09:00"; py "11:00"; py "13:00"; py "15:00"; py "17:00"; py "19:00"].

(** [list[i]] on a Python list, for [i >= 0]. *)
Definition item {A} (l : list A) (i : nat) : res A :=
  match l !! i with
  | Some x => Ok x
  | None => Raise IndexError
  end.

(** The loop [for i, activity in enumerate(activities[:3])]: [i] is the index
    of the head of [rest], [timeline] the list built so far. *)
Fixpoint timeline_loop (i : nat) (rest restaurants : list pystr) (timeline : list slot)
  : res (list slot) :=
  match rest with
  | [] => Ok timeline
  | activity :: rest' =>
      t ← item times (i * 2);
      let timeline := timeline ++ [{| slot_time := t; slot_item := activity; slot_kind := activity_slot |}] in
      if decide (i < length restaurants) then
        t' ← item times (i * 2 + 1);
        r ← item restaurants i;
        timeline_loop (S i) rest' restaurants
          (timeline ++ [{| slot_time := t'; slot_item := r; slot_kind := restaurant_slot |}])
      else timeline_loop (S i) rest' restaurants timeline
  end.

Definition build_timeline (activities restaurants : list pystr) : res (list slot) :=
  timeline_loop 0 (take 3 activities) restaurants [].

Definition slot_line (s : slot) : pystr :=
  let icon := if decide (slot_kind s = activity_slot) then py "🎯" else py "🍽️" in
  py "**" ++ slot_time s ++ py "** " ++ icon ++ py " " ++ slot_item s ++ nl ++ nl.

Definition itinerary_text (location start_time : pystr) (timeline : list slot) : pystr :=
  let result := py "# 📅 Itinerario per " ++ location ++ nl ++ nl in
  let result := result ++ py "**Inizio:** " ++ start_time ++ nl ++ nl in
  let result := result ++ mjoin (slot_line <$> timeline) in
  let result := result ++ nl ++ py "💡 **Consigli:**" ++ nl in
  let result := result ++ py "- Porta sempre un ombrello pieghevole" ++ nl in
  let result := result ++ py "- Prenota i ristoranti in anticipo" ++ nl in
  result ++ py "- Usa i mezzi pubblici o cammina" ++ nl.

Definition create_itinerary_body (arguments : itinerary_arguments) : res pystr :=
  location ← subscript "location" (ia_location arguments);
  activities ← subscript "activities" (ia_activities arguments);
  let restaurants := default [] (ia_restaurants arguments) in
  let start_time := default (py "09:00") (ia_start_time arguments) in
  timeline ← build_timeline activities restaurants;
  Ok (itinerary_text location start_time timeline).

Definition create_itinerary (arguments : itinerary_arguments) : pystr :=
  travel_except (create_itinerary_body arguments).

(** The three tips, as a list, to count them. *)
Definition fixed_tips : list pystr :=
  [py "Porta sempre un ombrello pieghevole";
   py "Prenota i ristoranti in anticipo";
   py "Usa i mezzi pubblici o cammina"].

(** ** server.py: the weather tool server *)

(** [API_KEY = os.getenv("WEATHERAPI_KEY", "")]: the variable may be unset. *)
Definition getenv_API_KEY (WEATHERAPI_KEY : option pystr) : pystr :=
  default [] WEATHERAPI_KEY.

(** A URL built by [build_url] is kept as its endpoint and the pairs handed to
    [urlencode], each value through [str()]; the percent-escaping of the query
    string is not modelled. *)
Record url : Type := {
  url_endpoint : pystr;
  url_query : list (pystr * pystr)
}.

#[global] Instance url_eq_dec : EqDecision url.
Proof. solve_decision. Defined.

(** [build_url(endpoint, params)]: the key is added last and the entries whose
    value is [None] are left out. *)
Definition build_url (API_KEY endpoint : pystr) (params : list (pystr * option pystr)) : url :=
  let params := params ++ [(py "key", Some API_KEY)] in
  {| url_endpoint := endpoint;
     url_query := omap (λ kv, (λ v, (kv.1, v)) <$> kv.2) params |}.

(** The arguments of the five weather tools, as their schemas type them;
    [days] is declared [["integer", "string"]]. *)
Inductive days_value : Type :=
  | DaysInt (n : Z)
  | DaysStr (s : pystr).

Record arguments : Type := {
  arg_q : option pystr;
  arg_days : option days_value;
  arg_aqi : option pystr;
  arg_alerts : option pystr;
  arg_lang : option pystr;
  arg_dt : option pystr;
  arg_end_dt : option pystr
}.

(** What the model leaves open: the decoded JSON bodies, the text block each
    handler formats from a body (by tool name and arguments; a block may
    raise, for instance on a missing entry), and two things of Python.  One is
    [repr] on strings as the message of [int]'s [ValueError] shows it, that
    is cut to its first 200 characters.  The other is [int()] on the strings
    whose reading depends on the interpreter: those with a character outside
    ASCII, which is read by the interpreter's tables of Unicode digits and
    white space, and those of more than 640 characters, which may run into
    the limit on the number of digits (4300 unless the interpreter is set up
    otherwise, never below 640).  On such a string [int()] returns an integer
    or raises a [ValueError], given here by its message. *)
Class Provider : Type := {
  json : Type;
  format_body : pystr → arguments → json → res pystr;
  py_repr : pystr → pystr;
  int_other : pystr → Z + pystr
}.

(** The reply of the provider to one GET, as [make_request] sees it: a
    decoded body, an error status ([raise_for_status]), or any other failure. *)
Inductive reply `{Provider} : Type :=
  | Body (data : json)
  | Status (msg : pystr) (status_code : Z) (error : option (option pystr))
  | Failure (msg : pystr).

(** A handler is a tree: it returns, or issues one GET and goes on with the
    reply. *)
Inductive io `{Provider} (A : Type) : Type :=
  | Ret (a : A)
  | HttpGet (u : url) (k : reply → io A).
Arguments Ret {_ A} a.
Arguments HttpGet {_ A} u k.

(** Running a handler against a network records the requests it issues. *)
Fixpoint run `{Provider} {A} (network : url → reply) (p : io A) : list url * A :=
  match p with
  | Ret a => ([], a)
  | HttpGet u k =>
      let '(requests, a) := run network (k (network u)) in
      (u :: requests, a)
  end.

Definition requests `{Provider} {A} (network : url → reply) (p : io A) : list url :=
  (run network p).1.

Definition payload `{Provider} {A} (network : url → reply) (p : io A) : A :=
  (run network p).2.

(** [data = await make_request(url)] followed by the formatting of [data]. *)
Definition make_request `{Provider} (u : url) (format : json → res pystr) : io (res pystr) :=
  HttpGet u (λ r,
    match r with
    | Body data => Ret (format data)
    | Status msg status_code error => Ret (Raise (HTTPStatusError msg status_code error))
    | Failure msg => Ret (Raise (OtherError msg))
    end).

(** [int(s)] on a string of ASCII characters.  Surrounding white space (the
    space and the characters 9 to 13) is dropped, a sign may come first, then
    decimal digits, with single underscores allowed between digits. *)
Definition is_space (c : N) : bool :=
  (c =? 32)%N || ((9 <=? c)%N && (c <=? 13)%N).

Definition is_digit (c : N) : bool := (48 <=? c)%N && (c <=? 57)%N.

Fixpoint lstrip (s : pystr) : pystr :=
  match s with
  | c :: s' => if is_space c then lstrip s' else s
  | [] => []
  end.

Definition strip (s : pystr) : pystr := reverse (lstrip (reverse (lstrip s))).

Fixpoint parse_digits (acc : Z) (after_digit : bool) (s : pystr) : option Z :=
  match s with
  | [] => if after_digit then Some acc else None
  | c :: s' =>
      if is_digit c then parse_digits (10 * acc + Z.of_N (c - 48)) true s'
      else if (c =? 95)%N && after_digit then
        match s' with
        | [] => None
        | _ :: _ => parse_digits acc false s'
        end
      else None
  end.

Definition int_of_ascii (s : pystr) : option Z :=
  match strip s with
  | 45%N :: body => Z.opp <$> parse_digits 0 false body
  | 43%N :: body => parse_digits 0 false body
  | body => parse_digits 0 false body
  end.

(** The strings [int()] reads in the same way under every interpreter: ASCII
    only, and of 640 characters at most. *)
Definition ascii_short (s : pystr) : bool :=
  forallb (λ c, (c <? 128)%N) s && (length s <=? 640).

(** [int(s)] on a string: the reading above on an ASCII string of 640
    characters at most, the interpreter's on any other. *)
Definition py_int `{Provider} (s : pystr) : res Z :=
  if ascii_short s then
    match int_of_ascii s with
    | Some n => Ok n
    | None => Raise (ValueError (py "invalid literal for int() with base 10: " ++ py_repr s))
    end
  else
    match int_other s with
    | inl n => Ok n
    | inr msg => Raise (ValueError msg)
    end.

(** The two [except] clauses of [call_tool]. *)
Definition weather_except (r : res pystr) : pystr :=
  match r with
  | Ok text => text
  | Raise (HTTPStatusError _ status_code error) =>
      let error_msg := py "Errore HTTP " ++ str_of_Z status_code in
      match error with
      | Some message => error_msg ++ py ": " ++ default (py "Errore sconosciuto") message
      | None => error_msg
      end
  | Raise e => py "Errore: " ++ exn_str e
  end.

Fixpoint io_map `{Provider} {A B} (f : A → B) (p : io A) : io B :=
  match p with
  | Ret a => Ret (f a)
  | HttpGet u k => HttpGet u (λ r, io_map f (k r))
  end.

(** An exception raised before the request is built ends the [try] block. *)
Definition try_then `{Provider} {A} (r : res A) (k : A → io (res pystr)) : io (res pystr) :=
  match r with
  | Ok a => k a
  | Raise e => Ret (Raise e)
  end.

Definition credential_error : pystr :=
  py "Errore: WEATHERAPI_KEY non configurata. Imposta la variabile d'ambiente con la tua API key.".

Definition unknown_tool (name : pystr) : pystr := py "Strumento sconosciuto: " ++ name.

(** The [try] block of [call_tool]: the dispatch on the tool name. *)
Definition dispatch `{Provider} (API_KEY name : pystr) (arguments : arguments) : io (res pystr) :=
  if decide (name = py "get_current_weather") then
    try_then (subscript "q" (arg_q arguments)) (λ q,
      make_request
        (build_url API_KEY (py "current")
           [(py "q", Some q);
            (py "aqi", Some (default (py "no") (arg_aqi arguments)));
            (py "lang", Some (default (py "en") (arg_lang arguments)))])
        (format_body name arguments))
  else if decide (name = py "get_forecast") then
    try_then
      (match arg_days arguments with
       | None => Ok 3%Z
       | Some (DaysInt n) => Ok n
       | Some (DaysStr s) => py_int s
       end) (λ days,
    try_then (subscript "q" (arg_q arguments)) (λ q,
      make_request
        (build_url API_KEY (py "forecast")
           [(py "q", Some q);
            (py "days", Some (str_of_Z days));
            (py "aqi", Some (default (py "no") (arg_aqi arguments)));
            (py "alerts", Some (default (py "yes") (arg_alerts arguments)));
            (py "lang", Some (default (py "en") (arg_lang arguments)))])
        (format_body name arguments)))
  else if decide (name = py "get_history") then
    try_then (subscript "q" (arg_q arguments)) (λ q,
    try_then (subscript "dt" (arg_dt arguments)) (λ dt,
      make_request
        (build_url API_KEY (py "history")
           [(py "q", Some q);
            (py "dt", Some dt);
            (py "end_dt", arg_end_dt arguments);
            (py "lang", Some (default (py "en") (arg_lang arguments)))])
        (format_body name arguments)))
  else if decide (name = py "search_location") then
    try_then (subscript "q" (arg_q arguments)) (λ q,
      make_request (build_url API_KEY (py "search") [(py "q", Some q)]) (format_body name arguments))
  else if decide (name = py "get_astronomy") then
    try_then (subscript "q" (arg_q arguments)) (λ q,
      make_request
        (build_url API_KEY (py "astronomy") [(py "q", Some q); (py "dt", arg_dt arguments)])
        (format_body name arguments))
  else Ret (Ok (unknown_tool name)).

(** [call_tool(name, arguments)]; the result is the text of the single
    [TextContent] returned. *)
Definition call_tool `{Provider} (API_KEY name : pystr) (arguments : arguments) : io pystr :=
  if decide (API_KEY = []) then Ret credential_error
  else io_map weather_except (dispatch API_KEY name arguments).

(** The schema [list_tools] declares for [days]: an integer or a string, with
    [minimum] 1 and [maximum] 14.  In JSON Schema the two bounds constrain
    numbers and say nothing of a string. *)
Definition days_schema_accepts (d : days_value) : bool :=
  match d with
  | DaysInt n => (1 <=? n)%Z && (n <=? 14)%Z
  | DaysStr _ => true
  end.

(** ** app.py: the chat front end *)

(** What the front end leaves to its libraries: the arguments of a tool call
    and their rendering by [json.dumps(_, indent=2, ensure_ascii=False)]. *)
Class Frontend : Type := {
  tool_args : Type;
  json_dumps : tool_args → pystr
}.

(** A [cl.Message] under construction: the text streamed so far and the
    attached elements ([None] until some are set). *)
Record element : Type := {
  el_name : pystr;
  el_content : pystr;
  el_display : pystr;
  el_language : pystr
}.

Record cl_message : Type := {
  msg_content : pystr;
  msg_elements : option (list element)
}.

(** [msg.stream_token(token)] appends the token to the content. *)
Definition stream_token (token : pystr) (msg : cl_message) : cl_message :=
  {| msg_content := msg_content msg ++ token; msg_elements := msg_elements msg |}.

(** [for char in text: await msg.stream_token(char)]; the pauses between the
    tokens are not modelled. *)
Definition stream_chars (text : pystr) (msg : cl_message) : cl_message :=
  foldl (λ m char, stream_token [char] m) msg text.

(** [stream_tool_response(tool_name, response, msg)] *)
Definition stream_tool_response (tool_name response : pystr) (msg : cl_message) : cl_message :=
  let msg := stream_token (py "📦 **Risposta da `" ++ tool_name ++ py "`:**" ++ nl ++ nl) msg in
  if decide (200 < length response) then
    let preview := take 200 response ++ py "..." in
    let msg := stream_token (py "```" ++ nl ++ preview ++ nl ++ py "```" ++ nl ++ nl) msg in
    let elements := default [] (msg_elements msg) in
    let elements := elements ++
      [{| el_name := py "tool_response_" ++ tool_name;
          el_content := response;
          el_display := py "inline";
          el_language := py "text" |}] in
    {| msg_content := msg_content msg; msg_elements := Some elements |}
  else
    let msg := stream_chars response msg in
    stream_token (nl ++ nl) msg.

(** The messages of a transcript ([response["messages"]]), by class name.  A
    tool call is a dictionary read through ["name"] and ["args"]. *)
Record tool_call `{Frontend} : Type := {
  tc_name : option pystr;
  tc_args : option tool_args
}.

Inductive message `{Frontend} : Type :=
  | HumanMessage (content : pystr)
  | AIMessage (content : pystr) (tool_calls : list tool_call)
  | ToolMessage (name : option pystr) (content : pystr)
  | OtherMessage.

(** The three variables the walk over the transcript updates. *)
Record walk_state : Type := {
  tool_calls_made : list pystr;
  step_content : list pystr;
  final_response : pystr
}.

(** [tool_call.get("name", "unknown")] and the dump of
    [tool_call.get("args", {})]. *)
Definition call_name `{Frontend} (tc : tool_call) : pystr :=
  default (py "unknown") (tc_name tc).

Definition call_args_dump `{Frontend} (tc : tool_call) : pystr :=
  match tc_args tc with
  | Some a => json_dumps a
  | None => py "{}"
  end.

(** The body of [for tool_call in response_msg.tool_calls]. *)
Definition walk_call `{Frontend} (st : walk_state) (tc : tool_call) : walk_state :=
  let tool_name := call_name tc in
  {| tool_calls_made := tool_calls_made st ++ [tool_name];
     step_content := step_content st
       ++ [py "**Tool:** `" ++ tool_name ++ py "`"]
       ++ [py "```json" ++ nl ++ call_args_dump tc ++ nl ++ py "```"];
     final_response := final_response st |}.

(** The body of [for i, response_msg in enumerate(response["messages"])].  A
    [ToolMessage] without a name shows as [None]. *)
Definition walk_message `{Frontend} (st : walk_state) (m : message) : walk_state :=
  match m with
  | AIMessage content (tc :: tcs) => foldl walk_call st (tc :: tcs)
  | ToolMessage name content =>
      let tool_name := default (py "None") name in
      {| tool_calls_made := tool_calls_made st;
         step_content := step_content st
           ++ [py "**Risposta da " ++ tool_name ++ py ":**"]
           ++ [py "```" ++ nl ++ content ++ nl ++ py "```"]
           ++ [py "---"];
         final_response := final_response st |}
  | AIMessage content [] =>
      match content with
      | [] => st
      | _ :: _ =>
          {| tool_calls_made := tool_calls_made st;
             step_content := step_content st;
             final_response := content |}
      end
  | HumanMessage _ | OtherMessage => st
  end.

Definition walk `{Frontend} (messages : list message) : walk_state :=
  foldl walk_message
    {| tool_calls_made := []; step_content := []; final_response := [] |} messages.

(** A record of [conversation_history]. *)
Record turn : Type := {
  timestamp : pystr;
  user : pystr;
  assistant : pystr;
  tools_used : list pystr
}.

(** The session: the agent, when the chat start succeeded in building one,
    and the history.  An agent maps the user's message to a transcript, or
    raises. *)
Record session `{Frontend} : Type := {
  agent : option (pystr → res (list message));
  conversation_history : option (list turn)
}.

(** What [main] leaves behind: the session and the messages sent to the user,
    as author and content. *)
Record served `{Frontend} : Type := {
  served_session : session;
  sent : list (pystr * pystr)
}.

(** [main(message)]; [now] is [datetime.now().isoformat()]. *)
Definition main `{Frontend} (now : pystr) (s : session) (user_message : pystr) : served :=
  match agent s with
  | None =>
      {| served_session := s;
         sent := [(py "System", py "❌ Agent non inizializzato. Ricarica la pagina.")] |}
  | Some invoke =>
      let thinking := (py "Assistant", []) in
      match invoke user_message with
      | Raise e =>
          {| served_session := s;
             sent := [thinking;
                      (py "Assistant", py "❌ Si è verificato un errore durante l'elaborazione.")] |}
      | Ok messages =>
          let st := walk messages in
          let final_msg := stream_chars (final_response st)
                             {| msg_content := []; msg_elements := None |} in
          let history := default [] (conversation_history s) in
          let history := history ++
            [{| timestamp := now;
                user := user_message;
                assistant := final_response st;
                tools_used := tool_calls_made st |}] in
          {| served_session := {| agent := agent s; conversation_history := Some history |};
             sent := [thinking; (py "Assistant", msg_content final_msg)] |}
      end
  end.

(** The tool calls of a transcript, in the order they appear, to state what
    [tools_used] holds. *)
Definition calls_of `{Frontend} (m : message) : list tool_call :=
  match m with
  | AIMessage _ tool_calls => tool_calls
  | _ => []
  end.

Definition transcript_calls `{Frontend} (messages : list message) : list tool_call :=
  messages ≫= calls_of.

(** ** Definitions used to state the properties *)

(** The restaurants an answer lists, as the specification words it: the
    location's list, or the default list for a location that is not in the
    table; every entry when the budget is the middle tier, else the entries
    whose price is the budget; the first three of those. *)
Definition default_restaurants : list restaurant :=
  [{| r_name := py "Ristorante Locale"; r_type := py "tradizionale";
      r_price := py "€€"; r_specialty := py "Cucina locale" |}].

Definition restaurants_as_claimed (location budget : pystr) : list restaurant :=
  let table :=
    match RESTAURANTS_DB !! location with
    | Some l => l
    | None => default_restaurants
    end in
  let matching :=
    if decide (budget = py "€€") then table
    else filter (λ r, r_price r = budget) table in
  take 3 matching.

(** The items of the slots of one kind, in the order of the timeline. *)
Definition items_of (kind : slot_type) (timeline : list slot) : list pystr :=
  slot_item <$> filter (λ s, slot_kind s = kind) timeline.

(** The names of the five weather tools. *)
Definition weather_tools : list pystr :=
  [py "get_current_weather"; py "get_forecast"; py "get_history";
   py "search_location"; py "get_astronomy"].

(** The request [get_forecast] builds for a location and a number of days. *)
Definition forecast_url (API_KEY q : pystr) (days : Z) (arguments : arguments) : url :=
  {| url_endpoint := py "forecast";
     url_query :=
       [(py "q", q);
        (py "days", str_of_Z days);
        (py "aqi", default (py "no") (arg_aqi arguments));
        (py "alerts", default (py "yes") (arg_alerts arguments));
        (py "lang", default (py "en") (arg_lang arguments));
        (py "key", API_KEY)] |}.

(** A provider and a front end to run the examples with: bodies carry no
    data, every block is the text ["ok"], [repr] adds the quotes, and [int()]
    rejects the strings it is left to read. *)
Definition example_provider : Provider :=
  {| json := unit;
     format_body := λ _ _ _, Ok (py "ok");
     py_repr := λ s, py "'" ++ s ++ py "'";
     int_other := λ s, inr (py "invalid literal for int() with base 10: "
                            ++ py "'" ++ s ++ py "'") |}.

Definition example_frontend : Frontend :=
  {| tool_args := unit; json_dumps := λ _, py "{}" |}.

(** A network that answers every request with a body. *)
Definition example_network : url → @reply example_provider :=
  λ _, @Body example_provider tt.

(** ** travel_server.py: the activity table and the other branches *)

Record activity : Type := {
  a_name : pystr;
  a_description : pystr;
  a_suitable_weather : list pystr;
  a_duration : pystr;
  a_type : pystr
}.

#[global] Instance activity_eq_dec : EqDecision activity.
Proof. solve_decision. Defined.

Definition ACTIVITIES_DB : gmap pystr (list activity) :=
  list_to_map [
    (py "indoor", [
       {| a_name := py "Musei e Gallerie d'Arte";
          a_description := py "Visita musei, gallerie, mostre";
          a_suitable_weather := [py "rain"; py "cold"; py "snow"];
          a_duration := py "2-4 ore"; a_type := py "cultura" |};
       {| a_name := py "Shopping Centers";
          a_description := py "Centri commerciali, boutique al coperto";
          a_suitable_weather := [py "rain"; py "cold"; py "hot"];
          a_duration := py "2-3 ore"; a_type := py "shopping" |};
       {| a_name := py "Cinema o Teatro";
          a_description := py "Film, spettacoli teatrali, concerti al coperto";
          a_suitable_weather := [py "rain"; py "cold"; py "hot"];
          a_duration := py "2-3 ore"; a_type := py "intrattenimento" |};
       {| a_name := py "Spa e Centri Benessere";
          a_description := py "Relax, massaggi, terme";
          a_suitable_weather := [py "rain"; py "cold"];
          a_duration := py "2-4 ore"; a_type := py "relax" |};
       {| a_name := py "Ristoranti e Caffè Storici";
          a_description := py "Tour gastronomico al coperto";
          a_suitable_weather := [py "rain"; py "cold"; py "hot"];
          a_duration := py "1-2 ore"; a_type := py "food" |} ]);
    (py "outdoor", [
       {| a_name := py "Parchi e Giardini";
          a_description := py "Passeggiate, picnic, relax all'aperto";
          a_suitable_weather := [py "sunny"; py "mild"; py "partly_cloudy"];
          a_duration := py "1-3 ore"; a_type := py "natura" |};
       {| a_name := py "Tour Architettonici a Piedi";
          a_description := py "Scopri monumenti e architettura";
          a_suitable_weather := [py "sunny"; py "mild"; py "partly_cloudy"];
          a_duration := py "2-4 ore"; a_type := py "cultura" |};
       {| a_name := py "Mercati all'Aperto";
          a_description := py "Mercati locali, street food";
          a_suitable_weather := [py "sunny"; py "mild"];
          a_duration := py "1-2 ore"; a_type := py "shopping" |};
       {| a_name := py "Attività Sportive";
          a_description := py "Ciclismo, jogging, sport";
          a_suitable_weather := [py "sunny"; py "mild"];
          a_duration := py "1-3 ore"; a_type := py "sport" |};
       {| a_name := py "Aperitivi all'Aperto";
          a_description := py "Bar con terrazze, rooftop";
          a_suitable_weather := [py "sunny"; py "mild"];
          a_duration := py "1-2 ore"; a_type := py "food" |} ]);
    (py "mixed", [
       {| a_name := py "Tour Guidati della Città";
          a_description := py "Bus turistici, tour guidati misti";
          a_suitable_weather := [py "any"];
          a_duration := py "3-4 ore"; a_type := py "cultura" |};
       {| a_name := py "Cooking Class";
          a_description := py "Corsi di cucina locale";
          a_suitable_weather := [py "any"];
          a_duration := py "2-3 ore"; a_type := py "food" |} ])
  ].

(** What the planning engine leaves to Python: [str()] of a [float], which
    the f-string of the answer applies to the temperature. *)
Class Python : Type := {
  float_str : float → pystr
}.

Definition number_str `{Python} (t : number) : pystr :=
  match t with
  | Int z => str_of_Z z
  | Float f => float_str f
  end.

(** *** The [suggest_activities] branch of [call_tool] *)

Record activities_arguments : Type := {
  sa_location : option pystr;
  sa_weather_condition : option pystr;
  sa_temperature : option number;
  sa_preferences : option (list pystr);
  sa_duration : option pystr
}.

(** [weather_class in ["rain", "snow", "cold", "hot"]] *)
Definition prefer_indoor (weather_class : category) : bool :=
  match weather_class with
  | rain | snow | cold | hot => true
  | sunny | mild | partly_cloudy => false
  end.

(** [weather_class in activity["suitable_weather"] or "any" in
    activity["suitable_weather"]] *)
Definition weather_suits (weather_class : category) (a : activity) : Prop :=
  category_str weather_class ∈ a_suitable_weather a ∨ py "any" ∈ a_suitable_weather a.

(** [not preferences or activity["type"] in preferences] *)
Definition preferred (preferences : list pystr) (a : activity) : Prop :=
  preferences = [] ∨ a_type a ∈ preferences.

(** The name of the category tried first and of the one kept in reserve. *)
Definition primary_category (weather_class : category) : string :=
  if prefer_indoor weather_class then "indoor"%string else "outdoor"%string.

Definition secondary_category (weather_class : category) : string :=
  if prefer_indoor weather_class then "outdoor"%string else "indoor"%string.

(** The list [suitable_activities] as it stands before the answer is
    formatted: the three loops and the filter on the duration. *)
Definition select_activities (weather_class : category) (preferences : list pystr)
    (duration : pystr) : res (list activity) :=
  primary ← subscript (primary_category weather_class)
              (ACTIVITIES_DB !! py (primary_category weather_class));
  let suitable_activities :=
    filter (λ a, weather_suits weather_class a ∧ preferred preferences a) primary in
  mixed ← subscript "mixed" (ACTIVITIES_DB !! py "mixed");
  let suitable_activities := suitable_activities ++ filter (preferred preferences) mixed in
  suitable_activities ←
    (if decide (length suitable_activities < 3) then
       secondary ← subscript (secondary_category weather_class)
                     (ACTIVITIES_DB !! py (secondary_category weather_class));
       Ok (suitable_activities ++ filter (preferred preferences) secondary)
     else Ok suitable_activities);
  Ok (if decide (duration = py "short")
      then filter (λ a, contains (py "1-2") (a_duration a) = true) suitable_activities
      else suitable_activities).

(** One numbered block of the answer; [i] is the rank, counted from 1. *)
Definition activity_block (i : nat) (a : activity) : pystr :=
  str_of_Z (Z.of_nat i) ++ py ". **" ++ a_name a ++ py "**" ++ nl
  ++ py "   - " ++ a_description a ++ nl
  ++ py "   - Durata: " ++ a_duration a ++ nl
  ++ py "   - Tipo: " ++ a_type a ++ nl ++ nl.

(** The text built for the activities [shown] (those of
    [suitable_activities[:5]]). *)
Definition activities_text `{Python} (location weather_condition : pystr)
    (temperature : number) (indoor : bool) (shown : list activity) : pystr :=
  let result := py "**Attività consigliate per " ++ location ++ py "**" ++ nl ++ nl in
  let result := result ++ py "🌡️ Meteo: " ++ weather_condition ++ py ", "
                  ++ number_str temperature ++ py "°C" ++ nl in
  let result := result ++ py "📊 Condizioni: "
                  ++ (if indoor then py "Al coperto consigliato"
                      else py "Perfetto per stare all'aperto") ++ nl ++ nl in
  result ++ mjoin (imap (λ i a, activity_block (S i) a) shown).

Definition suggest_activities_body `{Python} (arguments : activities_arguments) : res pystr :=
  location ← subscript "location" (sa_location arguments);
  weather_condition ← subscript "weather_condition" (sa_weather_condition arguments);
  temperature ← subscript "temperature" (sa_temperature arguments);
  let preferences := default [] (sa_preferences arguments) in
  let duration := default (py "medium") (sa_duration arguments) in
  let weather_class := classify_weather weather_condition temperature in
  suitable_activities ← select_activities weather_class preferences duration;
  Ok (activities_text location weather_condition temperature
        (prefer_indoor weather_class) (take 5 suitable_activities)).

Definition suggest_activities `{Python} (arguments : activities_arguments) : pystr :=
  travel_except (suggest_activities_body arguments).

(** *** The [get_travel_tips] branch of [call_tool] *)

Record tips_arguments : Type := {
  tip_location : option pystr;
  tip_weather_condition : option pystr;
  tip_temperature : option number
}.

(** The line of the clothing block, by weather class. *)
Definition clothing_line (weather_class : category) : pystr :=
  if decide (weather_class = rain) then
    py "- Giacca impermeabile, ombrello, scarpe chiuse" ++ nl
  else if decide (weather_class = cold) then
    py "- Cappotto, sciarpa, guanti, cappello" ++ nl
  else if decide (weather_class = hot) then
    py "- Abbigliamento leggero, cappello, crema solare" ++ nl
  else
    py "- Vestiti a strati, giacca leggera" ++ nl.

Definition tips_text (location : pystr) (weather_class : category) : pystr :=
  let result := py "**Consigli di Viaggio per " ++ location ++ py "**" ++ nl ++ nl in
  let result := result ++ py "👕 **Abbigliamento:**" ++ nl in
  let result := result ++ clothing_line weather_class in
  let result := result ++ nl ++ py "🎒 **Cosa portare:**" ++ nl in
  let result := result ++ py "- Bottiglia d'acqua riutilizzabile" ++ nl in
  let result := result ++ py "- Power bank per smartphone" ++ nl in
  let result := result ++ py "- Mappa offline della città" ++ nl in
  let result := result ++ nl ++ py "🚇 **Trasporti:**" ++ nl in
  let result := result ++ py "- Acquista biglietti giornalieri per risparmiare" ++ nl in
  result ++ py "- App utili: Google Maps, Moovit" ++ nl.

Definition get_travel_tips_body (arguments : tips_arguments) : res pystr :=
  location ← subscript "location" (tip_location arguments);
  weather_condition ← subscript "weather_condition" (tip_weather_condition arguments);
  temperature ← subscript "temperature" (tip_temperature arguments);
  let weather_class := classify_weather weather_condition temperature in
  Ok (tips_text location weather_class).

Definition get_travel_tips (arguments : tips_arguments) : pystr :=
  travel_except (get_travel_tips_body arguments).

(** *** The travel server's [call_tool] *)

(** The argument dictionary of the travel server, with every key its four
    tools read. *)
Record travel_arguments : Type := {
  t_location : option pystr;
  t_weather_condition : option pystr;
  t_temperature : option number;
  t_preferences : option (list pystr);
  t_duration : option pystr;
  t_meal_type : option pystr;
  t_cuisine_type : option pystr;
  t_budget : option pystr;
  t_activities : option (list pystr);
  t_restaurants : option (list pystr);
  t_start_time : option pystr
}.

(** [call_tool(name, arguments)] of [travel_server.py]; the result is the
    text of the single [TextContent] returned. *)
Definition travel_call_tool `{Python} (name : pystr) (arguments : travel_arguments) : pystr :=
  if decide (name = py "suggest_activities") then
    suggest_activities
      {| sa_location := t_location arguments;
         sa_weather_condition := t_weather_condition arguments;
         sa_temperature := t_temperature arguments;
         sa_preferences := t_preferences arguments;
         sa_duration := t_duration arguments |}
  else if decide (name = py "suggest_restaurants") then
    suggest_restaurants
      {| ra_location := t_location arguments;
         ra_meal_type := t_meal_type arguments;
         ra_cuisine_type := t_cuisine_type arguments;
         ra_budget := t_budget arguments |}
  else if decide (name = py "create_itinerary") then
    create_itinerary
      {| ia_location := t_location arguments;
         ia_activities := t_activities arguments;
         ia_restaurants := t_restaurants arguments;
         ia_start_time := t_start_time arguments |}
  else if decide (name = py "get_travel_tips") then
    get_travel_tips
      {| tip_location := t_location arguments;
         tip_weather_condition := t_weather_condition arguments;
         tip_temperature := t_temperature arguments |}
  else unknown_tool name.

(** ** The tool registries ([list_tools] of the two servers) *)

(** A declared default: a string, an integer or the empty list. *)
Inductive json_default : Type :=
  | DefaultStr (s : pystr)
  | DefaultInt (n : Z)
  | DefaultEmptyList.

(** An entry of ["properties"]: its key, its ["type"] (one name or several),
    and the ["enum"], ["minimum"], ["maximum"] and ["default"] it declares.
    The descriptions and the item type of an array are left out. *)
Record property : Type := {
  prop_name : pystr;
  prop_type : list pystr;
  prop_enum : option (list pystr);
  prop_minimum : option Z;
  prop_maximum : option Z;
  prop_default : option json_default
}.

(** A [Tool]: its name, the properties of its [inputSchema] and the keys the
    schema requires. *)
Record tool : Type := {
  tool_name : pystr;
  tool_properties : list property;
  tool_required : list pystr
}.

Definition plain (name type : string) : property :=
  {| prop_name := py name; prop_type := [py type]; prop_enum := None;
     prop_minimum := None; prop_maximum := None; prop_default := None |}.

Definition with_default (name type default : string) : property :=
  {| prop_name := py name; prop_type := [py type]; prop_enum := None;
     prop_minimum := None; prop_maximum := None;
     prop_default := Some (DefaultStr (py default)) |}.

Definition choice (name : string) (enum : list string) (default : string) : property :=
  {| prop_name := py name; prop_type := [py "string"]; prop_enum := Some (py <$> enum);
     prop_minimum := None; prop_maximum := None;
     prop_default := Some (DefaultStr (py default)) |}.

(** [list_tools()] of [server.py] *)
Definition list_tools : list tool :=
  [ {| tool_name := py "get_current_weather";
       tool_properties :=
         [plain "q" "string";
          choice "aqi" ["yes"; "no"]%string "no";
          with_default "lang" "string" "en"];
       tool_required := [py "q"] |};
    {| tool_name := py "get_forecast";
       tool_properties :=
         [plain "q" "string";
          {| prop_name := py "days"; prop_type := [py "integer"; py "string"];
             prop_enum := None; prop_minimum := Some 1%Z; prop_maximum := Some 14%Z;
             prop_default := Some (DefaultInt 3) |};
          choice "aqi" ["yes"; "no"]%string "no";
          choice "alerts" ["yes"; "no"]%string "yes";
          with_default "lang" "string" "en"];
       tool_required := [py "q"] |};
    {| tool_name := py "get_history";
       tool_properties :=
         [plain "q" "string";
          plain "dt" "string";
          plain "end_dt" "string";
          with_default "lang" "string" "en"];
       tool_required := [py "q"; py "dt"] |};
    {| tool_name := py "search_location";
       tool_properties := [plain "q" "string"];
       tool_required := [py "q"] |};
    {| tool_name := py "get_astronomy";
       tool_properties := [plain "q" "string"; plain "dt" "string"];
       tool_required := [py "q"] |} ].

(** [list_tools()] of [travel_server.py] *)
Definition travel_list_tools : list tool :=
  [ {| tool_name := py "suggest_activities";
       tool_properties :=
         [plain "location" "string";
          plain "weather_condition" "string";
          plain "temperature" "number";
          {| prop_name := py "preferences"; prop_type := [py "array"]; prop_enum := None;
             prop_minimum := None; prop_maximum := None;
             prop_default := Some DefaultEmptyList |};
          with_default "duration" "string" "medium"];
       tool_required := [py "location"; py "weather_condition"; py "temperature"] |};
    {| tool_name := py "suggest_restaurants";
       tool_properties :=
         [plain "location" "string";
          choice "meal_type" ["breakfast"; "lunch"; "dinner"; "aperitivo"]%string "lunch";
          with_default "cuisine_type" "string" "tradizionale";
          choice "budget" ["€"; "€€"; "€€€"]%string "€€"];
       tool_required := [py "location"] |};
    {| tool_name := py "create_itinerary";
       tool_properties :=
         [plain "location" "string";
          plain "activities" "array";
          plain "restaurants" "array";
          with_default "start_time" "string" "09:00"];
       tool_required := [py "location"; py "activities"] |};
    {| tool_name := py "get_travel_tips";
       tool_properties :=
         [plain "location" "string";
          plain "weather_condition" "string";
          plain "temperature" "number"];
       tool_required := [py "location"; py "weather_condition"; py "temperature"] |} ].

(** [key in arguments], on the two argument records. *)
Definition supplied (key : pystr) (a : arguments) : bool :=
  if decide (key = py "q") then bool_decide (is_Some (arg_q a))
  else if decide (key = py "days") then bool_decide (is_Some (arg_days a))
  else if decide (key = py "aqi") then bool_decide (is_Some (arg_aqi a))
  else if decide (key = py "alerts") then bool_decide (is_Some (arg_alerts a))
  else if decide (key = py "lang") then bool_decide (is_Some (arg_lang a))
  else if decide (key = py "dt") then bool_decide (is_Some (arg_dt a))
  else if decide (key = py "end_dt") then bool_decide (is_Some (arg_end_dt a))
  else false.

Definition travel_supplied (key : pystr) (a : travel_arguments) : bool :=
  if decide (key = py "location") then bool_decide (is_Some (t_location a))
  else if decide (key = py "weather_condition") then bool_decide (is_Some (t_weather_condition a))
  else if decide (key = py "temperature") then bool_decide (is_Some (t_temperature a))
  else if decide (key = py "preferences") then bool_decide (is_Some (t_preferences a))
  else if decide (key = py "duration") then bool_decide (is_Some (t_duration a))
  else if decide (key = py "meal_type") then bool_decide (is_Some (t_meal_type a))
  else if decide (key = py "cuisine_type") then bool_decide (is_Some (t_cuisine_type a))
  else if decide (key = py "budget") then bool_decide (is_Some (t_budget a))
  else if decide (key = py "activities") then bool_decide (is_Some (t_activities a))
  else if decide (key = py "restaurants") then bool_decide (is_Some (t_restaurants a))
  else if decide (key = py "start_time") then bool_decide (is_Some (t_start_time a))
  else false.

(** [arguments.setdefault(key, default)] for a key of the weather tools that
    declares a default: the string keys take a string, [days] an integer. *)
Definition or_else {A} (field : option A) (v : A) : option A :=
  match field with
  | Some x => Some x
  | None => Some v
  end.

Definition setdefault (key : pystr) (d : json_default) (a : arguments) : arguments :=
  match d with
  | DefaultStr s =>
      if decide (key = py "aqi") then
        {| arg_q := arg_q a; arg_days := arg_days a; arg_aqi := or_else (arg_aqi a) s;
           arg_alerts := arg_alerts a; arg_lang := arg_lang a; arg_dt := arg_dt a;
           arg_end_dt := arg_end_dt a |}
      else if decide (key = py "alerts") then
        {| arg_q := arg_q a; arg_days := arg_days a; arg_aqi := arg_aqi a;
           arg_alerts := or_else (arg_alerts a) s; arg_lang := arg_lang a; arg_dt := arg_dt a;
           arg_end_dt := arg_end_dt a |}
      else if decide (key = py "lang") then
        {| arg_q := arg_q a; arg_days := arg_days a; arg_aqi := arg_aqi a;
           arg_alerts := arg_alerts a; arg_lang := or_else (arg_lang a) s; arg_dt := arg_dt a;
           arg_end_dt := arg_end_dt a |}
      else a
  | DefaultInt n =>
      if decide (key = py "days") then
        {| arg_q := arg_q a; arg_days := or_else (arg_days a) (DaysInt n); arg_aqi := arg_aqi a;
           arg_alerts := arg_alerts a; arg_lang := arg_lang a; arg_dt := arg_dt a;
           arg_end_dt := arg_end_dt a |}
      else a
  | DefaultEmptyList => a
  end.

(** The same for the travel tools: [duration], [meal_type], [cuisine_type],
    [budget] and [start_time] take a string, [preferences] the empty list. *)
Definition travel_setdefault (key : pystr) (d : json_default) (a : travel_arguments)
  : travel_arguments :=
  {| t_location := t_location a;
     t_weather_condition := t_weather_condition a;
     t_temperature := t_temperature a;
     t_preferences :=
       match d with
       | DefaultEmptyList =>
           if decide (key = py "preferences") then or_else (t_preferences a) []
           else t_preferences a
       | _ => t_preferences a
       end;
     t_duration :=
       match d with
       | DefaultStr s =>
           if decide (key = py "duration") then or_else (t_duration a) s else t_duration a
       | _ => t_duration a
       end;
     t_meal_type :=
       match d with
       | DefaultStr s =>
           if decide (key = py "meal_type") then or_else (t_meal_type a) s else t_meal_type a
       | _ => t_meal_type a
       end;
     t_cuisine_type :=
       match d with
       | DefaultStr s =>
           if decide (key = py "cuisine_type") then or_else (t_cuisine_type a) s
           else t_cuisine_type a
       | _ => t_cuisine_type a
       end;
     t_budget :=
       match d with
       | DefaultStr s =>
           if decide (key = py "budget") then or_else (t_budget a) s else t_budget a
       | _ => t_budget a
       end;
     t_activities := t_activities a;
     t_restaurants := t_restaurants a;
     t_start_time :=
       match d with
       | DefaultStr s =>
           if decide (key = py "start_time") then or_else (t_start_time a) s
           else t_start_time a
       | _ => t_start_time a
       end |}.

(** The arguments of a call once every default the tool's schema declares
    has been filled in for the keys the caller left out. *)
Definition fill_defaults (t : tool) (a : arguments) : arguments :=
  foldr (λ p a,
           match prop_default p with
           | Some d => setdefault (prop_name p) d a
           | None => a
           end) a (tool_properties t).

Definition travel_fill_defaults (t : tool) (a : travel_arguments) : travel_arguments :=
  foldr (λ p a,
           match prop_default p with
           | Some d => travel_setdefault (prop_name p) d a
           | None => a
           end) a (tool_properties t).

(** ** app.py: the other functions *)

(** [stream_tool_call(tool_name, tool_args, msg)] *)
Definition stream_tool_call `{Frontend} (tool_name : pystr) (args : tool_args)
    (msg : cl_message) : cl_message :=
  let msg := stream_token (nl ++ nl ++ py "🔧 **Chiamata tool: `" ++ tool_name
                           ++ py "`**" ++ nl ++ nl) msg in
  let msg := stream_token (py "```json" ++ nl) msg in
  let args_json := json_dumps args in
  let msg := stream_chars args_json msg in
  stream_token (nl ++ py "```" ++ nl ++ nl) msg.

(** [PROVIDER_MODELS], a dictionary kept in the order it is written. *)
Definition PROVIDER_MODELS : list (pystr * list pystr) :=
  [(py "OpenAI", [py "gpt-4o"; py "gpt-4o-mini"; py "gpt-4-turbo"]);
   (py "Anthropic", [py "claude-3-5-sonnet-20241022"; py "claude-3-haiku-20240307"]);
   (py "Groq", [py "openai/gpt-oss-120b"; py "llama-3.3-70b-versatile";
                py "llama-3.1-70b-versatile"; py "mixtral-8x7b-32768"])].

(** The three keys [get_llm] reads from the environment. *)
Record environment : Type := {
  OPENAI_API_KEY : option pystr;
  ANTHROPIC_API_KEY : option pystr;
  GROQ_API_KEY : option pystr
}.

(** The constructor call [get_llm] makes: the class and the four keyword
    arguments ([api_key] is [os.getenv] of the provider's variable, [None]
    when it is unset). *)
Inductive chat_class : Type := ChatOpenAI | ChatAnthropic | ChatGroq.

Record llm_call : Type := {
  llm_class : chat_class;
  llm_model : pystr;
  llm_temperature : Z;
  llm_streaming : bool;
  llm_api_key : option pystr
}.

(** What [get_llm] leaves to the model libraries: the chat models, and what
    a constructor makes of a call.  It returns a model or raises, as those of
    OpenAI and Groq do when they are given no key. *)
Class Models : Type := {
  chat_model : Type;
  construct : llm_call → res chat_model
}.

(** [get_llm(provider, model)]; a provider that matches no branch falls off
    the end of the function, which returns [None]. *)
Definition get_llm `{Models} (env : environment) (provider model : pystr)
  : res (option chat_model) :=
  if decide (provider = py "OpenAI") then
    llm ← construct {| llm_class := ChatOpenAI; llm_model := model; llm_temperature := 0;
                       llm_streaming := true; llm_api_key := OPENAI_API_KEY env |};
    Ok (Some llm)
  else if decide (provider = py "Anthropic") then
    llm ← construct {| llm_class := ChatAnthropic; llm_model := model; llm_temperature := 0;
                       llm_streaming := true; llm_api_key := ANTHROPIC_API_KEY env |};
    Ok (Some llm)
  else if decide (provider = py "Groq") then
    llm ← construct {| llm_class := ChatGroq; llm_model := model; llm_temperature := 0;
                       llm_streaming := true; llm_api_key := GROQ_API_KEY env |};
    Ok (Some llm)
  else Ok None.

(** The answer a transcript message offers: the content of an [AIMessage]
    that has a text and no tool call. *)
Definition final_of `{Frontend} (m : message) : option pystr :=
  match m with
  | AIMessage (c :: content) [] => Some (c :: content)
  | _ => None
  end.

(** A chat: [main] is called once for each message of the user, at its own
    time, on the session the call before left. *)
Definition serve `{Frontend} (s : session) (turns : list (pystr * pystr)) : session :=
  foldl (λ s turn, served_session (main turn.1 s turn.2)) s turns.

(** ** Definitions used to state the further properties *)

(** The activities the table holds under a category. *)
Definition activities_of (category : string) : list activity :=
  default [] (ACTIVITIES_DB !! py category).

(** The endpoint each weather tool addresses. *)
Definition tool_endpoint : list (pystr * pystr) :=
  [(py "get_current_weather", py "current");
   (py "get_forecast", py "forecast");
   (py "get_history", py "history");
   (py "search_location", py "search");
   (py "get_astronomy", py "astronomy")].

(** A Python for the examples, in which every [float] prints as [21.5]. *)
Definition example_python : Python := {| float_str := λ _, py "21.5" |}.

(** The class [get_llm] builds for each provider, and the key it hands on. *)
Definition provider_classes (env : environment)
  : list (pystr * (chat_class * option pystr)) :=
  [(py "OpenAI", (ChatOpenAI, OPENAI_API_KEY env));
   (py "Anthropic", (ChatAnthropic, ANTHROPIC_API_KEY env));
   (py "Groq", (ChatGroq, GROQ_API_KEY env))].

(** * Properties *)

(** Two literals are told apart by evaluating them. *)
Ltac py_neq := let E := fresh "E" in intros E; vm_compute in E; discriminate E.

(** ** Facts on strings *)

Lemma starts_with_prefix (sub s : pystr) :
  starts_with sub s = true ↔ sub `prefix_of` s.
Proof.
  revert s. induction sub as [|a sub IH]; intros [|b s]; simpl.
  - split; [intros _; apply prefix_nil | done].
  - split; [intros _; apply prefix_nil | done].
  - split; [done | intros [k Hk]; discriminate Hk].
  - rewrite andb_true_iff, N.eqb_eq, IH. split.
    + intros [-> H]. by apply prefix_cons.
    + intros H. split; [by apply prefix_cons_inv_1 in H | by apply prefix_cons_inv_2 in H].
Qed.

(** [sub in s] holds exactly when [sub] is a stretch of [s]. *)
Lemma contains_infix (sub s : pystr) :
  contains sub s = true ↔ ∃ pre post, s = pre ++ sub ++ post.
Proof.
  induction s as [|b s IH]; simpl.
  - rewrite orb_false_r, starts_with_prefix. split.
    + intros [k Hk]. by exists [], k.
    + intros (pre & post & H). symmetry in H.
      apply app_eq_nil in H as [-> H]. apply app_eq_nil in H as [-> _].
      apply prefix_nil.
  - rewrite orb_true_iff, starts_with_prefix, IH. split.
    + intros [[k Hk] | (pre & post & ->)].
      * by exists [], k.
      * by exists (b :: pre), post.
    + intros ([|c pre] & post & H).
      * left. by exists post.
      * right. injection H as -> ->. by exists pre, post.
Qed.

Lemma lower_app (s1 s2 : pystr) : lower (s1 ++ s2) = lower s1 ++ lower s2.
Proof. apply fmap_app. Qed.

Lemma lower_char_idemp (c : N) : lower_char (lower_char c) = lower_char c.
Proof.
  unfold lower_char.
  destruct (65 <=? c)%N eqn:H1, (c <=? 90)%N eqn:H2; simpl; rewrite ?H1, ?H2; simpl; try done.
  apply N.leb_le in H1, H2.
  replace (c + 32 <=? 90)%N with false; [by rewrite andb_false_r|].
  symmetry. apply N.leb_gt. lia.
Qed.

Lemma lower_upper_char (c : N) : lower_char (upper_char c) = lower_char c.
Proof.
  unfold lower_char, upper_char.
  destruct (97 <=? c)%N eqn:H1, (c <=? 122)%N eqn:H2; simpl; try done.
  apply N.leb_le in H1, H2.
  replace (65 <=? c - 32)%N with true by (symmetry; apply N.leb_le; lia).
  replace (c - 32 <=? 90)%N with true by (symmetry; apply N.leb_le; lia).
  replace (c <=? 90)%N with false by (symmetry; apply N.leb_gt; lia).
  rewrite andb_false_r. simpl. lia.
Qed.

Lemma lower_idemp (s : pystr) : lower (lower s) = lower s.
Proof.
  unfold lower. rewrite <- list_fmap_compose. apply list_fmap_ext.
  intros _ c _. apply lower_char_idemp.
Qed.

Lemma lower_upper (s : pystr) : lower (upper s) = lower s.
Proof.
  unfold lower, upper. rewrite <- list_fmap_compose. apply list_fmap_ext.
  intros _ c _. apply lower_upper_char.
Qed.

(** The test of the code, [kw in weather_condition.lower()], is the mention
    of [kw] in the text. *)
Lemma contains_lower_mentions (kw c : pystr) :
  contains kw (lower c) = true ↔ mentions kw c.
Proof.
  rewrite contains_infix. unfold mentions. split.
  - intros (pre & post & H).
    apply fmap_app_inv in H as (c1 & c2 & Hpre & H & ->).
    symmetry in H. apply fmap_app_inv in H as (w & c3 & Hw & Hpost & ->).
    by exists c1, w, c3.
  - intros (pre & w & post & -> & <-).
    exists (lower pre), (lower post). by rewrite !lower_app.
Qed.

Lemma has_any_mentions (terms : list pystr) (c : pystr) :
  has_any terms c = true ↔ mentions_any terms c.
Proof.
  unfold has_any, mentions_any. rewrite existsb_exists. split.
  - intros (kw & Hin & H). exists kw. split.
    + by apply list_elem_of_In.
    + by apply contains_lower_mentions.
  - intros (kw & Hin & H). exists kw. split.
    + by apply list_elem_of_In.
    + by apply contains_lower_mentions.
Qed.

Lemma has_any_free (terms : list pystr) (c : pystr) :
  has_any terms c = false ↔ ¬ mentions_any terms c.
Proof. rewrite <- has_any_mentions. by destruct (has_any terms c). Qed.

(** [classify_weather] through the three tests. *)
Lemma classify_weather_cases (c : pystr) (t : number) :
  classify_weather c t =
    if has_any rain_terms c then rain
    else if has_any snow_terms c then snow
    else if has_any clear_terms c then (if num_gtb t 28 then hot else sunny)
    else if num_ltb t 5 then cold
    else if num_ltb t 18 then mild
    else partly_cloudy.
Proof.
  unfold classify_weather, has_any, rain_terms, snow_terms, clear_terms. simpl existsb.
  by rewrite !orb_false_r, !orb_assoc.
Qed.

Lemma keyword_free_tests (c : pystr) :
  keyword_free c ↔
  has_any rain_terms c = false ∧ has_any snow_terms c = false ∧ has_any clear_terms c = false.
Proof. unfold keyword_free. by rewrite !has_any_free. Qed.

(** ** classify_weather *)

(** A text classifies as its lower-case and upper-case forms do. *)
Lemma classify_weather_lower_eq (c c' : pystr) (t : number) :
  lower c = lower c' → classify_weather c t = classify_weather c' t.
Proof. intros H. unfold classify_weather. by rewrite H. Qed.

Lemma classify_weather_upper (c : pystr) (t : number) :
  classify_weather (upper c) t = classify_weather c t.
Proof. apply classify_weather_lower_eq, lower_upper. Qed.

Lemma classify_weather_lower (c : pystr) (t : number) :
  classify_weather (lower c) t = classify_weather c t.
Proof. apply classify_weather_lower_eq, lower_idemp. Qed.

(** When [hot] comes out, the text mentions a clear sky and the temperature
    is above 28. *)
Lemma classify_weather_hot (c : pystr) (t : number) :
  classify_weather c t = hot → mentions_any clear_terms c ∧ num_gtb t 28 = true.
Proof.
  rewrite classify_weather_cases.
  destruct (has_any rain_terms c); [done|].
  destruct (has_any snow_terms c); [done|].
  destruct (has_any clear_terms c) eqn:Hclear.
  - apply has_any_mentions in Hclear. by destruct (num_gtb t 28).
  - by destruct (num_ltb t 5), (num_ltb t 18).
Qed.

(** C4. [classify_weather] looks at the text before the temperature: a text
    that mentions a rain term (English or Italian, in any case) is [rain] at
    every temperature; failing that, one that mentions a snow term is [snow];
    failing that, one that mentions a clear-sky term is [hot] above 28 and
    [sunny] otherwise.  Texts that differ only in the case of their letters
    classify alike.  In particular "Heavy rain" is [rain] at 10 and at any
    other temperature, "Clear" is [hot] at 30 and [sunny] at 20, and
    "Overcast" is [cold] at 3. *)
Theorem classify_weather_text_first :
  (∀ c t, mentions_any rain_terms c → classify_weather c t = rain) ∧
  (∀ c t, ¬ mentions_any rain_terms c → mentions_any snow_terms c →
     classify_weather c t = snow) ∧
  (∀ c t, ¬ mentions_any rain_terms c → ¬ mentions_any snow_terms c →
     mentions_any clear_terms c →
     classify_weather c t = if num_gtb t 28 then hot else sunny) ∧
  (∀ c c' t, lower c = lower c' → classify_weather c t = classify_weather c' t) ∧
  (∀ t, classify_weather (py "Heavy rain") t = rain) ∧
  classify_weather (py "Heavy rain") (Int 10) = rain ∧
  classify_weather (py "Clear") (Int 30) = hot ∧
  classify_weather (py "Clear") (Int 20) = sunny ∧
  classify_weather (py "Overcast") (Int 3) = cold.
Proof.
  split_and!; try by vm_compute.
  - intros c t H%has_any_mentions. by rewrite classify_weather_cases, H.
  - intros c t Hr%has_any_free Hs%has_any_mentions.
    by rewrite classify_weather_cases, Hr, Hs.
  - intros c t Hr%has_any_free Hs%has_any_free Hc%has_any_mentions.
    by rewrite classify_weather_cases, Hr, Hs, Hc.
  - apply classify_weather_lower_eq.
Qed.

Lemma classify_weather_text_first_witness :
  classify_weather (py "Forte PIOGGIA") (Int 31) = rain ∧
  classify_weather (py "NEVE debole") (Float 30.5%float) = snow ∧
  classify_weather (py "Cielo SERENO") (Int 2) = sunny.
Proof.
  destruct classify_weather_text_first as (Hrain & Hsnow & Hclear & _).
  split; [|split].
  - apply Hrain. apply has_any_mentions. by vm_compute.
  - apply Hsnow.
    + apply has_any_free. by vm_compute.
    + apply has_any_mentions. by vm_compute.
  - apply (Hclear (py "Cielo SERENO") (Int 2)).
    + apply has_any_free. by vm_compute.
    + apply has_any_free. by vm_compute.
    + apply has_any_mentions. by vm_compute.
Defined.

(** C1, as the specification states it, fails: "Overcast" mentions none of
    the terms, and at 35 degrees it is [partly_cloudy], not the [hot] of the
    stated fallback. *)
Lemma fallback_as_claimed_fails :
  keyword_free (py "Overcast") ∧
  classify_weather (py "Overcast") (Int 35) = partly_cloudy ∧
  fallback_as_claimed (Int 35) = hot.
Proof.
  split; [|split]; [|by vm_compute..].
  apply keyword_free_tests. by vm_compute.
Qed.

(** C1, amended.  On a text that mentions none of the rain, snow and
    clear-sky terms, [classify_weather] returns [cold] below 5, [mild] below
    18 and [partly_cloudy] otherwise, also above 28: it never returns [hot]
    there, and it agrees with the stated fallback at every temperature that is
    not above 28.  [hot] is returned only for a text that mentions a
    clear-sky term, above 28. *)
Theorem classify_weather_fallback :
  (∀ c t, keyword_free c →
     classify_weather c t =
       if num_ltb t 5 then cold else if num_ltb t 18 then mild else partly_cloudy) ∧
  (∀ c z, keyword_free c → (28 < z)%Z → classify_weather c (Int z) = partly_cloudy) ∧
  (∀ c t, keyword_free c → num_gtb t 28 = false →
     classify_weather c t = fallback_as_claimed t) ∧
  (∀ c t, classify_weather c t = hot → mentions_any clear_terms c ∧ num_gtb t 28 = true).
Proof.
  assert (Hbands : ∀ c t, keyword_free c →
     classify_weather c t =
       if num_ltb t 5 then cold else if num_ltb t 18 then mild else partly_cloudy).
  { intros c t (Hr & Hs & Hc)%keyword_free_tests.
    by rewrite classify_weather_cases, Hr, Hs, Hc. }
  split_and!.
  - exact Hbands.
  - intros c z Hfree Hz. rewrite (Hbands _ _ Hfree). simpl.
    destruct (Z.ltb_spec z 5); [lia|]. destruct (Z.ltb_spec z 18); [lia|]. done.
  - intros c t Hfree Hle. rewrite (Hbands _ _ Hfree). unfold fallback_as_claimed.
    by rewrite Hle.
  - apply classify_weather_hot.
Qed.

Lemma classify_weather_fallback_witness :
  classify_weather (py "Overcast") (Int 35) = partly_cloudy ∧
  classify_weather (py "Nebbia") (Float 12.5%float) = mild.
Proof.
  destruct classify_weather_fallback as (Hbands & Habove & _).
  split.
  - apply Habove; [|done]. apply keyword_free_tests. by vm_compute.
  - rewrite Hbands; [by vm_compute|]. apply keyword_free_tests. by vm_compute.
Defined.

(** ** suggest_restaurants *)

Lemma RESTAURANTS_DB_default :
  RESTAURANTS_DB !! py "default" = Some default_restaurants.
Proof. by vm_compute. Qed.

(** The comprehension keeps everything at the middle tier and the exact
    matches at any other budget. *)
Lemma budget_filter_cases (budget : pystr) (restaurants : list restaurant) :
  budget_filter budget restaurants =
    if decide (budget = py "€€") then restaurants
    else filter (λ r, r_price r = budget) restaurants.
Proof.
  unfold budget_filter. case_decide as Hb.
  - induction restaurants as [|r l IH]; [done|].
    rewrite filter_cons_True by (by right). by rewrite IH.
  - apply list_filter_iff. intros r. split; [|by left].
    by intros [?|?].
Qed.

Lemma restaurants_at_spec (location : pystr) :
  restaurants_at location =
    Ok (match RESTAURANTS_DB !! location with
        | Some l => l
        | None => default_restaurants
        end).
Proof.
  unfold restaurants_at. rewrite RESTAURANTS_DB_default. simpl.
  by destruct (RESTAURANTS_DB !! location).
Qed.

(** C3. For every location and every budget, the answer of
    [suggest_restaurants] lists the first three, at most, of the entries of
    the location's list (the default list when the location is not in the
    table) whose price equals the budget, except that at the budget [€€] it
    takes them from the whole list, whatever their price; no call raises. *)
Theorem suggest_restaurants_selection
    (location budget : pystr) (meal_type cuisine_type : option pystr) :
  suggest_restaurants
    {| ra_location := Some location; ra_meal_type := meal_type;
       ra_cuisine_type := cuisine_type; ra_budget := Some budget |}
  = restaurants_text location (default (py "lunch") meal_type) budget
      (restaurants_as_claimed location budget)
  ∧ length (restaurants_as_claimed location budget) ≤ 3
  ∧ (∀ r, r ∈ restaurants_as_claimed location budget →
       r ∈ default default_restaurants (RESTAURANTS_DB !! location)
       ∧ (r_price r = budget ∨ budget = py "€€"))
  ∧ restaurants_as_claimed location (py "€€")
    = take 3 (default default_restaurants (RESTAURANTS_DB !! location)).
Proof.
  split_and!.
  - unfold suggest_restaurants, suggest_restaurants_body. simpl.
    rewrite restaurants_at_spec. simpl.
    by rewrite budget_filter_cases.
  - unfold restaurants_as_claimed. rewrite length_take. lia.
  - intros r Hr. unfold restaurants_as_claimed in Hr.
    apply elem_of_take in Hr as (i & Hr & _).
    apply list_elem_of_lookup_2 in Hr.
    destruct (RESTAURANTS_DB !! location) as [l|]; simpl;
      (case_decide; [by auto|]);
      apply list_elem_of_filter in Hr as [? ?]; auto.
  - unfold restaurants_as_claimed. rewrite decide_True by done.
    by destruct (RESTAURANTS_DB !! location).
Qed.

(** At Milano the middle tier also lists Luini, whose price is [€]; an
    unknown city is served from the default list. *)
Example suggest_restaurants_milano :
  r_name <$> restaurants_as_claimed (py "Milano") (py "€€")
  = [py "Trattoria Milanese"; py "Luini"; py "Eataly Smeraldo"].
Proof. by vm_compute. Qed.

Example suggest_restaurants_roma :
  r_name <$> restaurants_as_claimed (py "Roma") (py "€") = [py "Trapizzino"].
Proof. by vm_compute. Qed.

Example suggest_restaurants_unknown_city :
  RESTAURANTS_DB !! py "UnknownCity" = None ∧
  r_name <$> restaurants_as_claimed (py "UnknownCity") (py "€€") = [py "Ristorante Locale"].
Proof. by vm_compute. Qed.

(** Without a location the [KeyError] ends as a text. *)
Example suggest_restaurants_no_location :
  suggest_restaurants
    {| ra_location := None; ra_meal_type := None; ra_cuisine_type := None; ra_budget := None |}
  = py "Errore: 'location'".
Proof. by vm_compute. Qed.

(** ** create_itinerary *)

Lemma item_times (i : nat) : i < 6 → ∃ t, item times i = Ok t.
Proof.
  intros Hi. unfold item.
  destruct (lookup_lt_is_Some_2 times i) as [t Ht]; [done|].
  rewrite Ht. by exists t.
Qed.

Lemma items_of_app (kind : slot_type) (l1 l2 : list slot) :
  items_of kind (l1 ++ l2) = items_of kind l1 ++ items_of kind l2.
Proof. unfold items_of. by rewrite filter_app, fmap_app. Qed.

(** The loop, started at index [i] with at most [3 - i] activities left, ends
    without raising; it adds the activities left, and the restaurants of the
    same indices as far as there are any. *)
Lemma timeline_loop_spec (rest restaurants : list pystr) :
  ∀ (i : nat) (timeline : list slot),
    i + length rest ≤ 3 →
    ∃ added,
      timeline_loop i rest restaurants timeline = Ok (timeline ++ added)
      ∧ items_of activity_slot added = rest
      ∧ items_of restaurant_slot added = take (length rest) (drop i restaurants).
Proof.
  induction rest as [|a rest IH]; intros i timeline Hi; simpl in *.
  - exists []. by rewrite app_nil_r.
  - destruct (item_times (i * 2)) as [t Ht]; [lia|]. rewrite Ht. simpl.
    case_decide as Hlen.
    + destruct (item_times (i * 2 + 1)) as [t' Ht']; [lia|]. rewrite Ht'. simpl.
      destruct (lookup_lt_is_Some_2 restaurants i Hlen) as [r Hr].
      unfold item at 1. rewrite Hr. simpl.
      edestruct (IH (S i)) as (added & Hloop & Hacts & Hrests); [lia|].
      rewrite Hloop.
      eexists ([_; _] ++ added). split_and!.
      * by rewrite <- !app_assoc.
      * rewrite items_of_app, Hacts. done.
      * rewrite items_of_app, Hrests. by rewrite (drop_S _ _ _ Hr).
    + edestruct (IH (S i)) as (added & Hloop & Hacts & Hrests); [lia|].
      rewrite Hloop.
      eexists ([_] ++ added). split_and!.
      * by rewrite <- !app_assoc.
      * rewrite items_of_app, Hacts. done.
      * rewrite items_of_app, Hrests.
        rewrite !drop_ge by lia. by rewrite !take_nil.
Qed.

(** C10. Every call of [create_itinerary] builds a timeline, and the
    restaurants in it are the first [min (length activities) 3] of the
    restaurants given, in their order, so their number is
    [min (length restaurants) (min (length activities) 3)]: the restaurant of
    index [i] is placed only when there is an activity of index [i].  With one
    activity and three restaurants the timeline has exactly two entries and
    the last two restaurants are left out. *)
Theorem create_itinerary_restaurant_count :
  (∀ activities restaurants : list pystr,
     ∃ timeline,
       build_timeline activities restaurants = Ok timeline
       ∧ items_of activity_slot timeline = take 3 activities
       ∧ items_of restaurant_slot timeline = take (min (length activities) 3) restaurants
       ∧ length (filter (λ s, slot_kind s = restaurant_slot) timeline)
         = min (length restaurants) (min (length activities) 3))
  ∧ (∀ a r0 r1 r2 : pystr,
       build_timeline [a] [r0; r1; r2]
       = Ok [{| slot_time := py "09:00"; slot_item := a; slot_kind := activity_slot |};
             {| slot_time := py "11:00"; slot_item := r0; slot_kind := restaurant_slot |}]).
Proof.
  split; [|done].
  intros activities restaurants. unfold build_timeline.
  destruct (timeline_loop_spec (take 3 activities) restaurants 0 [])
    as (added & Hloop & Hacts & Hrests).
  { rewrite length_take. lia. }
  exists added. rewrite length_take, Nat.min_comm in Hrests.
  change (drop 0 restaurants) with restaurants in Hrests.
  split_and!; try done.
  unfold items_of in Hrests.
  rewrite <- (length_fmap slot_item), Hrests, length_take. lia.
Qed.

(** The three statements that end the text append the three tips. *)
Lemma itinerary_text_tips (location start_time : pystr) (timeline : list slot) :
  itinerary_text location start_time timeline
  = py "# 📅 Itinerario per " ++ location ++ nl ++ nl
    ++ py "**Inizio:** " ++ start_time ++ nl ++ nl
    ++ mjoin (slot_line <$> timeline)
    ++ nl ++ py "💡 **Consigli:**" ++ nl
    ++ mjoin ((λ tip, py "- " ++ tip ++ nl) <$> fixed_tips).
Proof.
  unfold itinerary_text. rewrite <- !app_assoc.
  by repeat f_equal.
Qed.

(** C5. With three activities and two restaurants the timeline has exactly
    five entries, at 09:00, 11:00, 13:00, 15:00 and 17:00, an activity and a
    restaurant in turn; the answer is, for any location and start time, the
    heading, these five lines and the three fixed tips.  The answer is built
    from the arguments alone (the branch reads no clock and draws no random
    number), which is why it is a function here. *)
Theorem create_itinerary_three_two
    (location a0 a1 a2 r0 r1 : pystr) (start_time : option pystr) :
  let timeline :=
    [{| slot_time := py "09:00"; slot_item := a0; slot_kind := activity_slot |};
     {| slot_time := py "11:00"; slot_item := r0; slot_kind := restaurant_slot |};
     {| slot_time := py "13:00"; slot_item := a1; slot_kind := activity_slot |};
     {| slot_time := py "15:00"; slot_item := r1; slot_kind := restaurant_slot |};
     {| slot_time := py "17:00"; slot_item := a2; slot_kind := activity_slot |}] in
  build_timeline [a0; a1; a2] [r0; r1] = Ok timeline
  ∧ length timeline = 5
  ∧ create_itinerary
      {| ia_location := Some location; ia_activities := Some [a0; a1; a2];
         ia_restaurants := Some [r0; r1]; ia_start_time := start_time |}
    = py "# 📅 Itinerario per " ++ location ++ nl ++ nl
      ++ py "**Inizio:** " ++ default (py "09:00") start_time ++ nl ++ nl
      ++ mjoin (slot_line <$> timeline)
      ++ nl ++ py "💡 **Consigli:**" ++ nl
      ++ mjoin ((λ tip, py "- " ++ tip ++ nl) <$> fixed_tips)
  ∧ length fixed_tips = 3.
Proof.
  intros timeline. split_and!; try done.
  unfold create_itinerary, create_itinerary_body.
  change (build_timeline [a0; a1; a2] [r0; r1]) with (Ok timeline).
  cbn [subscript mbind res_bind travel_except ia_location ia_activities
       ia_restaurants ia_start_time default].
  apply itinerary_text_tips.
Qed.

(** ** Decimal strings: [int(str(n)) = n] *)

Lemma lstrip_no_space (s : pystr) :
  Forall (λ c, is_space c = false) s → lstrip s = s.
Proof. intros [|c s' Hc _]; simpl; [done|]. by rewrite Hc. Qed.

Lemma strip_no_space (s : pystr) :
  Forall (λ c, is_space c = false) s → strip s = s.
Proof.
  intros Hs. unfold strip. rewrite (lstrip_no_space s Hs).
  rewrite lstrip_no_space by (by apply Forall_reverse).
  apply reverse_involutive.
Qed.

Lemma uint_digits_no_space (d : Decimal.uint) :
  Forall (λ c, is_space c = false) (uint_digits d).
Proof. induction d; simpl; by constructor. Qed.

Lemma parse_digits_acc (d : Decimal.uint) :
  ∀ acc : positive,
    parse_digits (Z.pos acc) true (uint_digits d) = Some (Z.pos (Pos.of_uint_acc d acc)).
Proof.
  induction d as [|d IH|d IH|d IH|d IH|d IH|d IH|d IH|d IH|d IH|d IH];
    intros acc; [done|..];
    cbn [uint_digits parse_digits is_digit N.leb N.compare Pos.compare
         Pos.compare_cont andb N.sub Pos.sub_mask Pos.double_mask
         Pos.succ_double_mask Pos.double_pred_mask Pos.pred_double Z.of_N Pos.of_uint_acc];
    rewrite <- IH; f_equal; lia.
Qed.

Lemma parse_digits_uint (d : Decimal.uint) :
  ∀ after_digit : bool,
    d ≠ Decimal.Nil ∨ after_digit = true →
    parse_digits 0 after_digit (uint_digits d) = Some (Z.of_N (Pos.of_uint d)).
Proof.
  induction d as [|d IH|d IH|d IH|d IH|d IH|d IH|d IH|d IH|d IH|d IH];
    intros b Hb.
  - destruct Hb as [?| ->]; done.
  - cbn [uint_digits parse_digits Pos.of_uint].
    change (is_digit 48) with true. cbn iota.
    rewrite <- (IH true) by auto. done.
  - exact (parse_digits_acc d 1).
  - exact (parse_digits_acc d 2).
  - exact (parse_digits_acc d 3).
  - exact (parse_digits_acc d 4).
  - exact (parse_digits_acc d 5).
  - exact (parse_digits_acc d 6).
  - exact (parse_digits_acc d 7).
  - exact (parse_digits_acc d 8).
  - exact (parse_digits_acc d 9).
Qed.

Lemma int_of_ascii_digits (d : Decimal.uint) :
  d ≠ Decimal.Nil → int_of_ascii (uint_digits d) = Some (Z.of_N (Pos.of_uint d)).
Proof.
  intros Hd. unfold int_of_ascii. rewrite strip_no_space by apply uint_digits_no_space.
  rewrite <- (parse_digits_uint d false) by auto.
  by destruct d.
Qed.

(** A string-encoded integer is read back as the integer. *)
Lemma int_of_ascii_of_Z (n : Z) : int_of_ascii (str_of_Z n) = Some n.
Proof.
  destruct n as [|p|p]; [done|..]; unfold str_of_Z; cbn [Z.to_int].
  - rewrite int_of_ascii_digits by apply DecimalPos.Unsigned.to_uint_nonnil.
    by rewrite DecimalPos.Unsigned.of_to.
  - unfold int_of_ascii.
    rewrite strip_no_space by (constructor; [done | apply uint_digits_no_space]).
    rewrite parse_digits_uint by (left; apply DecimalPos.Unsigned.to_uint_nonnil).
    by rewrite DecimalPos.Unsigned.of_to.
Qed.

Example int_of_ascii_3 : int_of_ascii (py "3") = Some 3%Z.
Proof. by vm_compute. Qed.

Example int_of_ascii_padded : int_of_ascii (py " +1_4 ") = Some 14%Z.
Proof. by vm_compute. Qed.

Example int_of_ascii_word : int_of_ascii (py "three") = None.
Proof. by vm_compute. Qed.

(** The decimal string of an integer is made of ASCII characters. *)
Lemma uint_digits_ascii (d : Decimal.uint) :
  forallb (λ c, (c <? 128)%N) (uint_digits d) = true.
Proof. induction d; simpl; done. Qed.

Lemma str_of_Z_ascii (n : Z) : forallb (λ c, (c <? 128)%N) (str_of_Z n) = true.
Proof.
  unfold str_of_Z. destruct (Z.to_int n); [apply uint_digits_ascii|].
  cbn [forallb]. by rewrite uint_digits_ascii.
Qed.

Lemma ascii_short_of_Z (n : Z) :
  length (str_of_Z n) ≤ 640 → ascii_short (str_of_Z n) = true.
Proof.
  intros Hlen. unfold ascii_short. rewrite str_of_Z_ascii. cbn [andb].
  by apply Nat.leb_le.
Qed.

(** ** server.py: call_tool *)

Section Weather.
Context `{Provider}.

Lemma run_io_map {A B} (f : A → B) (network : url → reply) (p : io A) :
  run network (io_map f p) = ((run network p).1, f (run network p).2).
Proof.
  induction p as [a|u k IH]; simpl; [done|].
  rewrite IH. by destruct (run network (k (network u))).
Qed.

Lemma requests_io_map {A B} (f : A → B) (network : url → reply) (p : io A) :
  requests network (io_map f p) = requests network p.
Proof. unfold requests. by rewrite run_io_map. Qed.

Lemma payload_io_map {A B} (f : A → B) (network : url → reply) (p : io A) :
  payload network (io_map f p) = f (payload network p).
Proof. unfold payload. by rewrite run_io_map. Qed.

(** [make_request] issues its request and nothing else. *)
Lemma requests_make_request (network : url → reply) (u : url) (format : json → res pystr) :
  requests network (make_request u format) = [u].
Proof. unfold requests, make_request. simpl. by destruct (network u). Qed.

(** A handler issues at most one request. *)
Lemma call_tool_one_request (network : url → reply) (API_KEY name : pystr) (arguments : arguments) :
  length (requests network (call_tool API_KEY name arguments)) ≤ 1.
Proof.
  unfold call_tool. case_decide; [simpl; lia|].
  rewrite requests_io_map. unfold dispatch, try_then.
  repeat case_decide;
    repeat match goal with
    | |- context [subscript ?k ?f] => destruct f; cbn [subscript]
    | |- context [match arg_days ?a with _ => _ end] => destruct (arg_days a) as [[?|?]|]
    | |- context [py_int ?s] => destruct (py_int s)
    end;
    rewrite ?requests_make_request; simpl; lia.
Qed.

Lemma dispatch_get_forecast (API_KEY : pystr) (arguments : arguments) :
  dispatch API_KEY (py "get_forecast") arguments =
    try_then
      (match arg_days arguments with
       | None => Ok 3%Z
       | Some (DaysInt n) => Ok n
       | Some (DaysStr s) => py_int s
       end) (λ days,
    try_then (subscript "q" (arg_q arguments)) (λ q,
      make_request (forecast_url API_KEY q days arguments)
        (format_body (py "get_forecast") arguments))).
Proof. unfold dispatch. rewrite decide_False by done. by rewrite decide_True. Qed.

Lemma payload_ret {A} (network : url → reply) (a : A) : payload network (Ret a) = a.
Proof. reflexivity. Qed.

Lemma requests_ret {A} (network : url → reply) (a : A) : requests network (Ret a) = [].
Proof. reflexivity. Qed.

(** Without a key the handler returns at once. *)
Lemma call_tool_no_key (name : pystr) (arguments : arguments) :
  call_tool [] name arguments = Ret credential_error.
Proof. reflexivity. Qed.

Lemma credential_error_not_unknown_tool (name : pystr) :
  credential_error ≠ unknown_tool name.
Proof. intros Heq. apply (f_equal (take 1)) in Heq. by vm_compute in Heq. Qed.

(** C7. When the key is missing from the environment or empty, every call
    of [call_tool], whatever the tool name and the arguments, returns the one
    text that explains it at once: run against any network, it issues no
    request and its payload is that text. *)
Theorem missing_credential_short_circuits
    (WEATHERAPI_KEY : option pystr) (name : pystr) (arguments : arguments)
    (network : url → reply) :
  WEATHERAPI_KEY = None ∨ WEATHERAPI_KEY = Some [] →
  call_tool (getenv_API_KEY WEATHERAPI_KEY) name arguments = Ret credential_error
  ∧ requests network (call_tool (getenv_API_KEY WEATHERAPI_KEY) name arguments) = []
  ∧ payload network (call_tool (getenv_API_KEY WEATHERAPI_KEY) name arguments)
    = credential_error.
Proof.
  intros Hkey.
  assert (getenv_API_KEY WEATHERAPI_KEY = []) as -> by (by destruct Hkey as [-> | ->]).
  by rewrite call_tool_no_key, requests_ret, payload_ret.
Qed.

(** C9. The check of the key comes before the dispatch on the tool name.
    With an empty key every name, in the registry or not, gets the text about
    the key, which is never the text about an unknown tool; so a call that
    ends with the unknown-tool text had a key.  With a key, a name outside the
    registry gets the unknown-tool text, without a request. *)
Theorem credential_check_precedes_dispatch (name : pystr) (arguments : arguments) :
  call_tool [] name arguments = Ret credential_error
  ∧ credential_error ≠ unknown_tool name
  ∧ (∀ API_KEY network,
       payload network (call_tool API_KEY name arguments) = unknown_tool name →
       API_KEY ≠ [])
  ∧ (∀ API_KEY, API_KEY ≠ [] → name ∉ weather_tools →
       call_tool API_KEY name arguments = Ret (unknown_tool name)).
Proof.
  split_and!; [apply call_tool_no_key | apply credential_error_not_unknown_tool | |].
  - intros API_KEY network Hpayload ->.
    rewrite call_tool_no_key, payload_ret in Hpayload.
    exact (credential_error_not_unknown_tool name Hpayload).
  - intros API_KEY Hkey Hname. unfold call_tool. rewrite decide_False by done.
    unfold weather_tools in Hname. rewrite !not_elem_of_cons in Hname.
    destruct Hname as (H1 & H2 & H3 & H4 & H5 & _).
    unfold dispatch.
    destruct (decide (name = py "get_current_weather")) as [E|_]; [by destruct (H1 E)|].
    destruct (decide (name = py "get_forecast")) as [E|_]; [by destruct (H2 E)|].
    destruct (decide (name = py "get_history")) as [E|_]; [by destruct (H3 E)|].
    destruct (decide (name = py "search_location")) as [E|_]; [by destruct (H4 E)|].
    destruct (decide (name = py "get_astronomy")) as [E|_]; [by destruct (H5 E)|].
    reflexivity.
Qed.

(** [int()] raises nothing but a [ValueError]. *)
Lemma py_int_raise (s : pystr) (e : exn) :
  py_int s = Raise e → ∃ msg, e = ValueError msg.
Proof.
  unfold py_int. destruct (ascii_short s).
  - destruct (int_of_ascii s); intros E; [discriminate E|]. injection E as <-. by eexists.
  - destruct (int_other s); intros E; [discriminate E|]. injection E as <-. by eexists.
Qed.

Lemma py_int_ascii (s : pystr) :
  ascii_short s = true →
  py_int s = match int_of_ascii s with
             | Some n => Ok n
             | None => Raise (ValueError (py "invalid literal for int() with base 10: "
                                          ++ py_repr s))
             end.
Proof. intros Hs. unfold py_int. by rewrite Hs. Qed.

(** C2, amended.  With a key and a location, [get_forecast] turns a string
    for [days] into the integer [int()] reads from it and puts that integer,
    or the integer given, or 3 by default, into the [days] entry of the one
    request it issues, whatever its value: the handler itself compares it
    with no bound.  A string that [int()] rejects gives the text of the
    [ValueError] and no request.  This holds for whatever [int()] makes of
    the string; on an ASCII string of 640 characters at most, where every
    interpreter reads alike, the integer is the one the decimal digits spell
    (so every string-encoded integer of that length is read back) and the
    error text is that of an invalid literal.  The integer given is taken of
    640 digits at most, which every interpreter prints. *)
Theorem get_forecast_days
    (API_KEY q : pystr) (arguments : arguments) (network : url → reply) :
  API_KEY ≠ [] →
  arg_q arguments = Some q →
  (∀ n, arg_days arguments = Some (DaysInt n) → length (str_of_Z n) ≤ 640 →
     requests network (call_tool API_KEY (py "get_forecast") arguments)
     = [forecast_url API_KEY q n arguments])
  ∧ (∀ s n, arg_days arguments = Some (DaysStr s) → py_int s = Ok n →
       requests network (call_tool API_KEY (py "get_forecast") arguments)
       = [forecast_url API_KEY q n arguments])
  ∧ (∀ s n, arg_days arguments = Some (DaysStr s) →
       ascii_short s = true → int_of_ascii s = Some n →
       requests network (call_tool API_KEY (py "get_forecast") arguments)
       = [forecast_url API_KEY q n arguments])
  ∧ (∀ n, arg_days arguments = Some (DaysStr (str_of_Z n)) → length (str_of_Z n) ≤ 640 →
       requests network (call_tool API_KEY (py "get_forecast") arguments)
       = [forecast_url API_KEY q n arguments])
  ∧ (arg_days arguments = None →
       requests network (call_tool API_KEY (py "get_forecast") arguments)
       = [forecast_url API_KEY q 3 arguments])
  ∧ (∀ s e, arg_days arguments = Some (DaysStr s) → py_int s = Raise e →
       ∃ msg, e = ValueError msg
              ∧ call_tool API_KEY (py "get_forecast") arguments = Ret (py "Errore: " ++ msg))
  ∧ (∀ s, arg_days arguments = Some (DaysStr s) →
       ascii_short s = true → int_of_ascii s = None →
       call_tool API_KEY (py "get_forecast") arguments
       = Ret (py "Errore: " ++ py "invalid literal for int() with base 10: " ++ py_repr s)).
Proof.
  intros Hkey Hq.
  assert (Hstr : ∀ s n, arg_days arguments = Some (DaysStr s) → py_int s = Ok n →
       requests network (call_tool API_KEY (py "get_forecast") arguments)
       = [forecast_url API_KEY q n arguments]).
  { intros s n Hdays Hint. unfold call_tool. rewrite decide_False by done.
    rewrite requests_io_map, dispatch_get_forecast, Hdays, Hq, Hint.
    apply requests_make_request. }
  assert (Hascii : ∀ s n, arg_days arguments = Some (DaysStr s) →
       ascii_short s = true → int_of_ascii s = Some n →
       requests network (call_tool API_KEY (py "get_forecast") arguments)
       = [forecast_url API_KEY q n arguments]).
  { intros s n Hdays Hs Hint. apply (Hstr _ _ Hdays).
    rewrite py_int_ascii by done. by rewrite Hint. }
  assert (Hraise : ∀ s msg, arg_days arguments = Some (DaysStr s) →
       py_int s = Raise (ValueError msg) →
       call_tool API_KEY (py "get_forecast") arguments = Ret (py "Errore: " ++ msg)).
  { intros s msg Hdays Hint. unfold call_tool. rewrite decide_False by done.
    rewrite dispatch_get_forecast, Hdays, Hint. reflexivity. }
  split_and!.
  - intros n Hdays _. unfold call_tool. rewrite decide_False by done.
    rewrite requests_io_map, dispatch_get_forecast, Hdays, Hq.
    apply requests_make_request.
  - exact Hstr.
  - exact Hascii.
  - intros n Hdays Hlen.
    apply (Hascii _ _ Hdays); [by apply ascii_short_of_Z | apply int_of_ascii_of_Z].
  - intros Hdays. unfold call_tool. rewrite decide_False by done.
    rewrite requests_io_map, dispatch_get_forecast, Hdays, Hq.
    apply requests_make_request.
  - intros s e Hdays Hint. destruct (py_int_raise s e Hint) as [msg ->].
    exists msg. split; [done|]. by apply (Hraise s).
  - intros s Hdays Hs Hint. apply (Hraise s); [done|].
    rewrite py_int_ascii by done. by rewrite Hint.
Qed.

End Weather.

Lemma missing_credential_short_circuits_witness :
  @call_tool example_provider (getenv_API_KEY None) (py "get_astronomy")
    {| arg_q := Some (py "Rome"); arg_days := None; arg_aqi := None; arg_alerts := None;
       arg_lang := None; arg_dt := None; arg_end_dt := None |}
  = Ret credential_error
  ∧ @requests example_provider _ example_network
      (call_tool (getenv_API_KEY (Some [])) (py "no_such_tool")
         {| arg_q := None; arg_days := None; arg_aqi := None; arg_alerts := None;
            arg_lang := None; arg_dt := None; arg_end_dt := None |})
    = [].
Proof.
  split.
  - apply (@missing_credential_short_circuits example_provider None _ _ example_network).
    by left.
  - apply (@missing_credential_short_circuits example_provider (Some []) _ _ example_network).
    by right.
Defined.

Lemma credential_check_precedes_dispatch_witness :
  @call_tool example_provider (py "secret") (py "no_such_tool")
    {| arg_q := None; arg_days := None; arg_aqi := None; arg_alerts := None;
       arg_lang := None; arg_dt := None; arg_end_dt := None |}
  = Ret (unknown_tool (py "no_such_tool")).
Proof.
  apply (@credential_check_precedes_dispatch example_provider); [py_neq|].
  unfold weather_tools. rewrite !not_elem_of_cons. split_and!; try py_neq.
  apply not_elem_of_nil.
Defined.

(** C2, as the specification states it, fails: the string ["20"] passes the
    declared schema, [int()] reads 20 from it, which is outside 1-14, and
    the handler issues the request with [days=20].  The handler itself treats
    the integer 20 alike, should it be handed one: the declared schema, which
    is not the handler's to enforce, does not accept that integer. *)
Lemma get_forecast_range_unchecked :
  let arguments days :=
    {| arg_q := Some (py "Rome"); arg_days := Some days; arg_aqi := None;
       arg_alerts := None; arg_lang := None; arg_dt := None; arg_end_dt := None |} in
  days_schema_accepts (DaysStr (py "20")) = true
  ∧ days_schema_accepts (DaysInt 20) = false
  ∧ ascii_short (py "20") = true
  ∧ int_of_ascii (py "20") = Some 20%Z
  ∧ ¬ (1 ≤ 20 ≤ 14)%Z
  ∧ @requests example_provider _ example_network
      (call_tool (py "secret") (py "get_forecast") (arguments (DaysStr (py "20"))))
    = [{| url_endpoint := py "forecast";
          url_query := [(py "q", py "Rome"); (py "days", py "20"); (py "aqi", py "no");
                        (py "alerts", py "yes"); (py "lang", py "en");
                        (py "key", py "secret")] |}]
  ∧ @payload example_provider _ example_network
      (call_tool (py "secret") (py "get_forecast") (arguments (DaysStr (py "20"))))
    = py "ok"
  ∧ @requests example_provider _ example_network
      (call_tool (py "secret") (py "get_forecast") (arguments (DaysInt 20)))
    = @requests example_provider _ example_network
      (call_tool (py "secret") (py "get_forecast") (arguments (DaysStr (py "20")))).
Proof. intros arguments. split_and!; try by vm_compute. lia. Qed.

Lemma get_forecast_days_witness :
  @requests example_provider _ example_network
    (call_tool (py "secret") (py "get_forecast")
       {| arg_q := Some (py "Rome"); arg_days := Some (DaysStr (py "3")); arg_aqi := None;
          arg_alerts := None; arg_lang := None; arg_dt := None; arg_end_dt := None |})
  = [forecast_url (py "secret") (py "Rome") 3
       {| arg_q := Some (py "Rome"); arg_days := Some (DaysStr (py "3")); arg_aqi := None;
          arg_alerts := None; arg_lang := None; arg_dt := None; arg_end_dt := None |}].
Proof.
  refine (proj1 (proj2 (proj2 (@get_forecast_days example_provider (py "secret") (py "Rome")
                                 _ example_network _ _))) (py "3") 3%Z _ _ _).
  - py_neq.
  - reflexivity.
  - reflexivity.
  - by vm_compute.
  - by vm_compute.
Defined.

(** ** app.py: stream_tool_response *)

(** Streaming a text character by character appends the text. *)
Lemma stream_chars_content (text : pystr) :
  ∀ msg, msg_content (stream_chars text msg) = msg_content msg ++ text
         ∧ msg_elements (stream_chars text msg) = msg_elements msg.
Proof.
  unfold stream_chars. induction text as [|c text IH]; intros msg; simpl.
  - by rewrite app_nil_r.
  - destruct (IH (stream_token [c] msg)) as [Hc He].
    rewrite Hc, He. simpl. by rewrite <- app_assoc.
Qed.

(** C6. For a response longer than 200 characters [stream_tool_response]
    streams a preview made of the first 200 characters of the response and
    an ellipsis, and attaches an element whose content is the whole
    response, named after the tool; a response of 200 characters or fewer is
    streamed in full and nothing is attached. *)
Theorem stream_tool_response_preview (tool_name response : pystr) (msg : cl_message) :
  let header := py "📦 **Risposta da `" ++ tool_name ++ py "`:**" ++ nl ++ nl in
  let preview := take 200 response ++ py "..." in
  (200 < length response →
     msg_content (stream_tool_response tool_name response msg)
     = msg_content msg ++ header ++ py "```" ++ nl ++ preview ++ nl ++ py "```" ++ nl ++ nl
     ∧ length preview = 203
     ∧ take 200 preview = take 200 response
     ∧ drop 200 preview = py "..."
     ∧ ∃ artifact,
         msg_elements (stream_tool_response tool_name response msg)
         = Some (default [] (msg_elements msg) ++ [artifact])
         ∧ el_content artifact = response
         ∧ el_name artifact = py "tool_response_" ++ tool_name)
  ∧ (length response ≤ 200 →
       msg_content (stream_tool_response tool_name response msg)
       = msg_content msg ++ header ++ response ++ nl ++ nl
       ∧ msg_elements (stream_tool_response tool_name response msg) = msg_elements msg).
Proof.
  intros header preview. subst header preview. split.
  - intros Hlong. unfold stream_tool_response. rewrite decide_True by done.
    assert (Hlen : length (take 200 response) = 200) by (rewrite length_take; lia).
    cbn [stream_token msg_content msg_elements].
    split_and!.
    + rewrite <- !app_assoc. reflexivity.
    + rewrite length_app, Hlen. reflexivity.
    + rewrite take_app_le by lia. rewrite take_take. reflexivity.
    + rewrite drop_app_length' by (symmetry; exact Hlen). reflexivity.
    + eexists. split_and!; reflexivity.
  - intros Hshort. unfold stream_tool_response. rewrite decide_False by lia.
    cbn [stream_token msg_content msg_elements].
    destruct (stream_chars_content response
                (stream_token (py "📦 **Risposta da `" ++ tool_name ++ py "`:**" ++ nl ++ nl) msg))
      as [Hc He].
    rewrite Hc, He. cbn [stream_token msg_content msg_elements].
    rewrite <- !app_assoc. split; reflexivity.
Qed.

Lemma stream_tool_response_preview_witness :
  let response := replicate 201 97%N in
  let msg := {| msg_content := []; msg_elements := None |} in
  msg_content (stream_tool_response (py "get_forecast") response msg)
  = msg_content msg
    ++ (py "📦 **Risposta da `" ++ py "get_forecast" ++ py "`:**" ++ nl ++ nl)
    ++ py "```" ++ nl ++ (take 200 response ++ py "...") ++ nl ++ py "```" ++ nl ++ nl
  ∧ msg_content (stream_tool_response (py "get_forecast") [83; 117; 110]%N msg)
    = msg_content msg
      ++ (py "📦 **Risposta da `" ++ py "get_forecast" ++ py "`:**" ++ nl ++ nl)
      ++ [83; 117; 110]%N ++ nl ++ nl.
Proof.
  intros response msg. split.
  - apply (stream_tool_response_preview (py "get_forecast") response msg).
    unfold response. rewrite length_replicate. lia.
  - apply (stream_tool_response_preview (py "get_forecast") [83; 117; 110]%N msg).
    simpl. lia.
Defined.

(** ** app.py: the walk over the transcript and the turn record *)

Section Chat.
Context `{Frontend}.

Lemma walk_call_calls (tcs : list tool_call) :
  ∀ st,
    tool_calls_made (foldl walk_call st tcs) = tool_calls_made st ++ (call_name <$> tcs)
    ∧ final_response (foldl walk_call st tcs) = final_response st.
Proof.
  induction tcs as [|tc tcs IH]; intros st; simpl.
  - by rewrite app_nil_r.
  - destruct (IH (walk_call st tc)) as [Hc Hf]. rewrite Hc, Hf. simpl.
    by rewrite <- app_assoc.
Qed.

Lemma walk_message_calls (st : walk_state) (m : message) :
  tool_calls_made (walk_message st m) = tool_calls_made st ++ (call_name <$> calls_of m).
Proof.
  destruct m as [content|content [|tc tcs]|name content|]; simpl;
    rewrite ?app_nil_r; try done.
  - by destruct content.
  - destruct (walk_call_calls tcs (walk_call st tc)) as [Hc _].
    rewrite Hc. simpl. by rewrite <- app_assoc.
Qed.

Lemma foldl_walk_message_calls (messages : list message) :
  ∀ st,
    tool_calls_made (foldl walk_message st messages)
    = tool_calls_made st ++ (call_name <$> transcript_calls messages).
Proof.
  induction messages as [|m messages IH]; intros st; simpl.
  - by rewrite app_nil_r.
  - rewrite IH, walk_message_calls. unfold transcript_calls. simpl.
    by rewrite fmap_app, <- app_assoc.
Qed.

(** The names collected by the walk are those of the tool calls of the
    transcript, in their order. *)
Lemma walk_tool_calls_made (messages : list message) :
  tool_calls_made (walk messages) = call_name <$> transcript_calls messages.
Proof. unfold walk. by rewrite foldl_walk_message_calls. Qed.

(** The answer kept is the content of a last message that is an [AIMessage]
    with a text and no tool call. *)
Lemma walk_final_answer (messages : list message) (answer : pystr) :
  answer ≠ [] →
  final_response (walk (messages ++ [AIMessage answer []])) = answer.
Proof.
  intros Hanswer. unfold walk. rewrite foldl_app. simpl.
  by destruct answer.
Qed.

(** C8. When the agent answers with a transcript that holds exactly two
    tool calls, [main] appends one record to the history of the session, and
    the [tools_used] of that record are the names of the two calls, in the
    order of the transcript; when the transcript ends with the final answer,
    the record keeps that answer. *)
Theorem main_tools_used
    (now user_message : pystr) (s : session) (invoke : pystr → res (list message))
    (messages : list message) (c1 c2 : tool_call) (n1 n2 : pystr) :
  agent s = Some invoke →
  invoke user_message = Ok messages →
  transcript_calls messages = [c1; c2] →
  tc_name c1 = Some n1 →
  tc_name c2 = Some n2 →
  ∃ t,
    conversation_history (served_session (main now s user_message))
    = Some (default [] (conversation_history s) ++ [t])
    ∧ tools_used t = [n1; n2]
    ∧ user t = user_message
    ∧ timestamp t = now
    ∧ (∀ earlier answer,
         messages = earlier ++ [AIMessage answer []] → answer ≠ [] →
         assistant t = answer).
Proof.
  intros Hagent Hinvoke Hcalls Hn1 Hn2.
  unfold main. rewrite Hagent, Hinvoke. eexists. split; [reflexivity|].
  cbn [tools_used user timestamp assistant]. split_and!; try done.
  - rewrite walk_tool_calls_made, Hcalls. unfold call_name. simpl.
    by rewrite Hn1, Hn2.
  - intros earlier answer -> Hanswer. by apply walk_final_answer.
Qed.

End Chat.

Lemma main_tools_used_witness :
  let call name := @Build_tool_call example_frontend (Some name) (Some tt) in
  let messages :=
    [@HumanMessage example_frontend (py "Che tempo fa a Roma?");
     AIMessage [] [call (py "get_forecast")];
     ToolMessage (Some (py "get_forecast")) (py "Sunny");
     AIMessage [] [call (py "suggest_activities")];
     ToolMessage (Some (py "suggest_activities")) (py "Parchi");
     AIMessage (py "Sole a Roma: vai al parco.") []] in
  let s := {| agent := Some (λ _, Ok messages); conversation_history := Some [] |} in
  ∃ t,
    conversation_history
      (served_session (@main example_frontend (py "2025-01-01T10:00:00") s (py "Che tempo fa a Roma?")))
    = Some [t]
    ∧ tools_used t = [py "get_forecast"; py "suggest_activities"]
    ∧ assistant t = py "Sole a Roma: vai al parco.".
Proof.
  intros call messages s.
  destruct (@main_tools_used example_frontend (py "2025-01-01T10:00:00")
              (py "Che tempo fa a Roma?") s (λ _, Ok messages) messages
              (call (py "get_forecast")) (call (py "suggest_activities"))
              (py "get_forecast") (py "suggest_activities"))
    as (t & Hhist & Htools & _ & _ & Hanswer); try reflexivity.
  exists t. split_and!; [exact Hhist | exact Htools |].
  apply (Hanswer (take 5 messages)); [reflexivity | by vm_compute].
Defined.

(** * Further properties of the planning engine *)

(** ** The activity table *)

Lemma Forall_filter_keep {A} (P Q : A → Prop) `{!∀ x, Decision (Q x)} (l : list A) :
  Forall P l → Forall P (filter Q l).
Proof.
  rewrite !Forall_forall. intros HP x Hx. apply list_elem_of_filter in Hx as [_ Hx]. by apply HP.
Qed.

Lemma ACTIVITIES_DB_lookup (category : string) :
  category ∈ ["indoor"; "outdoor"; "mixed"]%string →
  ACTIVITIES_DB !! py category = Some (activities_of category).
Proof.
  intros Hin. repeat (apply elem_of_cons in Hin as [->|Hin]); [by vm_compute..|].
  by apply elem_of_nil in Hin.
Qed.

Lemma primary_category_known (weather_class : category) :
  primary_category weather_class ∈ ["indoor"; "outdoor"; "mixed"]%string.
Proof. unfold primary_category. destruct (prefer_indoor weather_class); by repeat constructor. Qed.

Lemma secondary_category_known (weather_class : category) :
  secondary_category weather_class ∈ ["indoor"; "outdoor"; "mixed"]%string.
Proof. unfold secondary_category. destruct (prefer_indoor weather_class); by repeat constructor. Qed.

(** The candidates of the first two loops of [suggest_activities]. *)
Lemma select_activities_eq (weather_class : category) (preferences : list pystr)
    (duration : pystr) :
  select_activities weather_class preferences duration =
    let first :=
      filter (λ a, weather_suits weather_class a ∧ preferred preferences a)
        (activities_of (primary_category weather_class))
      ++ filter (preferred preferences) (activities_of "mixed") in
    let suitable_activities :=
      if decide (length first < 3)
      then first ++ filter (preferred preferences)
                      (activities_of (secondary_category weather_class))
      else first in
    Ok (if decide (duration = py "short")
        then filter (λ a, contains (py "1-2") (a_duration a) = true) suitable_activities
        else suitable_activities).
Proof.
  unfold select_activities.
  rewrite (ACTIVITIES_DB_lookup _ (primary_category_known weather_class)).
  rewrite (ACTIVITIES_DB_lookup "mixed") by (by repeat constructor).
  rewrite (ACTIVITIES_DB_lookup _ (secondary_category_known weather_class)).
  cbn [subscript mbind res_bind]. destruct (decide (_ < 3)); reflexivity.
Qed.

Section Planning.
Context `{Python}.

(** X1. Whatever the arguments, as long as the three required ones are there,
    [suggest_activities] answers with the text of the first five activities it
    selected, and every activity it selected is an entry of the table, has one
    of the preferred types when preferences were given, and lasts "1-2" hours
    when the duration asked for is "short". *)
Theorem suggest_activities_shown (location weather_condition : pystr) (temperature : number)
    (preferences : option (list pystr)) (duration : option pystr) :
  let weather_class := classify_weather weather_condition temperature in
  ∃ selected,
    select_activities weather_class (default [] preferences) (default (py "medium") duration)
      = Ok selected
    ∧ suggest_activities
        {| sa_location := Some location; sa_weather_condition := Some weather_condition;
           sa_temperature := Some temperature; sa_preferences := preferences;
           sa_duration := duration |}
      = activities_text location weather_condition temperature (prefer_indoor weather_class)
          (take 5 selected)
    ∧ length (take 5 selected) ≤ 5
    ∧ Forall (λ a, ∃ c, c ∈ ["indoor"; "outdoor"; "mixed"]%string ∧ a ∈ activities_of c)
        selected
    ∧ Forall (λ a, ∀ types, preferences = Some types → types ≠ [] → a_type a ∈ types) selected
    ∧ (duration = Some (py "short") →
       Forall (λ a, contains (py "1-2") (a_duration a) = true) selected).
Proof.
  intros weather_class.
  pose proof (select_activities_eq weather_class (default [] preferences)
                (default (py "medium") duration)) as Hsel.
  cbv zeta in Hsel.
  set (first := filter _ (activities_of (primary_category weather_class)) ++ _) in Hsel.
  set (suitable := if decide (length first < 3) then _ else first) in Hsel.
  assert (Forall (λ a, (∃ c, c ∈ ["indoor"; "outdoor"; "mixed"]%string ∧ a ∈ activities_of c)
                       ∧ preferred (default [] preferences) a) suitable) as Hall.
  { assert (Forall (λ a, (∃ c, c ∈ ["indoor"; "outdoor"; "mixed"]%string ∧ a ∈ activities_of c)
                         ∧ preferred (default [] preferences) a) first) as Hfirst.
    { subst first. apply Forall_app. split; apply Forall_forall; intros a Ha;
        apply list_elem_of_filter in Ha.
      - destruct Ha as [[_ Hp] Ha]. split; [|done].
        exists (primary_category weather_class). split; [apply primary_category_known | done].
      - destruct Ha as [Hp Ha]. split; [|done]. exists "mixed"%string. split; [by repeat constructor | done]. }
    subst suitable. destruct (decide (length first < 3)); [|exact Hfirst].
    apply Forall_app. split; [exact Hfirst|]. apply Forall_forall. intros a Ha.
    apply list_elem_of_filter in Ha as [Hp Ha]. split; [|done].
    exists (secondary_category weather_class). split; [apply secondary_category_known | done]. }
  eexists. split; [exact Hsel|].
  split_and!.
  - unfold suggest_activities, suggest_activities_body.
    cbn [subscript mbind res_bind sa_location sa_weather_condition sa_temperature
         sa_preferences sa_duration].
    fold weather_class. by rewrite Hsel.
  - rewrite length_take. lia.
  - case_decide; [apply Forall_filter_keep|]; eapply Forall_impl; try exact Hall; by intros a [??].
  - assert (Forall (λ a, ∀ types, preferences = Some types → types ≠ [] → a_type a ∈ types)
              suitable) as Htypes.
    { eapply Forall_impl; [exact Hall|]. intros a [_ Hp] types -> Hne.
      by destruct Hp as [Hp|Hp]. }
    case_decide; [by apply Forall_filter_keep | done].
  - intros ->. rewrite decide_True by done.
    apply Forall_forall. intros a Ha. by apply list_elem_of_filter in Ha as [? _].
Qed.

(** X2. When no preference is given, every activity selected suits the
    weather class (or any weather) and comes from the category tried first or
    from the mixed one: the reserve category is never consulted.  At least
    three activities are selected unless the duration asked for is "short",
    which can leave none: in snow no activity of the table is both suitable
    and short. *)
Theorem select_activities_no_preferences (weather_class : category) (duration : pystr) :
  (∃ selected,
     select_activities weather_class [] duration = Ok selected
     ∧ Forall (weather_suits weather_class) selected
     ∧ Forall (λ a, a ∈ activities_of (primary_category weather_class)
                    ∨ a ∈ activities_of "mixed") selected
     ∧ (duration = py "short" ∨ 3 ≤ length selected))
  ∧ select_activities snow [] (py "short") = Ok [].
Proof.
  split; [|by vm_compute].
  rewrite select_activities_eq. cbv zeta.
  set (first := filter _ (activities_of (primary_category weather_class)) ++ _).
  assert (3 ≤ length first) as Hlen.
  { subst first. destruct weather_class; vm_compute; lia. }
  assert (Forall (λ a, weather_suits weather_class a
                       ∧ (a ∈ activities_of (primary_category weather_class)
                          ∨ a ∈ activities_of "mixed")) first) as Hfirst.
  { subst first. apply Forall_app. split; apply Forall_forall; intros a Ha;
      apply list_elem_of_filter in Ha.
    - destruct Ha as [[Hs _] Ha]. split; [done | by left].
    - destruct Ha as [_ Ha]. split; [|by right].
      right. revert a Ha. apply Forall_forall. unfold activities_of.
      rewrite (ACTIVITIES_DB_lookup "mixed") by (by repeat constructor).
      by repeat constructor. }
  destruct (decide (length first < 3)) as [Hlt|_]; [lia|].
  eexists. split; [reflexivity|].
  destruct (decide (duration = py "short")) as [->|Hd].
  - split_and!; [| |by left]; apply Forall_filter_keep;
      eapply Forall_impl; try exact Hfirst; by intros a [??].
  - split_and!; [| |by right]; eapply Forall_impl; try exact Hfirst; by intros a [??].
Qed.

(** No activity of the reserve category suits the weather class it is the
    reserve for. *)
Lemma reserve_never_suits (weather_class : category) :
  Forall (λ a, ¬ weather_suits weather_class a)
    (activities_of (secondary_category weather_class)).
Proof.
  apply (bool_decide_unpack _). by destruct weather_class; vm_compute.
Qed.

(** X3. When preferences leave fewer than three candidates of the first
    category and the mixed one, every activity of the reserve category that
    has a preferred type is selected although it does not suit the weather
    class (an outdoor sport in the rain, say), as long as the duration asked
    for is not "short". *)
Theorem reserve_ignores_weather (weather_class : category) (preferences : list pystr)
    (duration : pystr) (a : activity) :
  duration ≠ py "short" →
  length (filter (λ a, weather_suits weather_class a ∧ preferred preferences a)
            (activities_of (primary_category weather_class))
          ++ filter (preferred preferences) (activities_of "mixed")) < 3 →
  a ∈ activities_of (secondary_category weather_class) →
  a_type a ∈ preferences →
  ¬ weather_suits weather_class a
  ∧ ∃ selected,
      select_activities weather_class preferences duration = Ok selected ∧ a ∈ selected.
Proof.
  intros Hd Hlen Ha Htype. split.
  - pose proof (reserve_never_suits weather_class) as Hnever.
    rewrite Forall_forall in Hnever. by apply Hnever.
  - rewrite select_activities_eq. cbv zeta.
    destruct (decide (_ < 3)) as [_|Hge]; [|by destruct Hge].
    destruct (decide (duration = py "short")) as [E|_]; [by destruct Hd|].
    eexists. split; [reflexivity|].
    apply elem_of_app. right. apply list_elem_of_filter. split; [by right | done].
Qed.

(** The clothing advice tells the classes "hot" and "cold" from the others. *)
Lemma clothing_line_hot (weather_class : category) :
  clothing_line weather_class = clothing_line hot → weather_class = hot.
Proof.
  destruct weather_class; first [reflexivity | intros E; vm_compute in E; discriminate E].
Qed.

Lemma clothing_line_cold (weather_class : category) :
  clothing_line weather_class = clothing_line cold → weather_class = cold.
Proof.
  destruct weather_class; first [reflexivity | intros E; vm_compute in E; discriminate E].
Qed.

Lemma tips_text_clothing (location : pystr) (c1 c2 : category) :
  tips_text location c1 = tips_text location c2 → clothing_line c1 = clothing_line c2.
Proof.
  unfold tips_text. cbv zeta. rewrite <- !app_assoc. intros E.
  do 7 apply app_inv_head in E. by apply app_inv_tail in E.
Qed.

(** X4. [get_travel_tips] gives the advice of the class of the weather: the
    advice for hot weather exactly when the text mentions a clear sky, neither
    rain nor snow, and the temperature is above 28; the advice for cold
    weather exactly when the text mentions none of the terms and the
    temperature is below 5.  A text that mentions snow gets the advice for
    mild weather at any temperature. *)
Theorem get_travel_tips_advice (location weather_condition : pystr) (temperature : number) :
  let answer :=
    get_travel_tips {| tip_location := Some location;
                       tip_weather_condition := Some weather_condition;
                       tip_temperature := Some temperature |} in
  answer = tips_text location (classify_weather weather_condition temperature)
  ∧ (answer = tips_text location hot ↔
       ¬ mentions_any rain_terms weather_condition
       ∧ ¬ mentions_any snow_terms weather_condition
       ∧ mentions_any clear_terms weather_condition
       ∧ num_gtb temperature 28 = true)
  ∧ (answer = tips_text location cold ↔
       keyword_free weather_condition ∧ num_ltb temperature 5 = true).
Proof.
  intros answer.
  assert (answer = tips_text location (classify_weather weather_condition temperature)) as ->
    by reflexivity.
  split; [done|].
  rewrite keyword_free_tests, <- !has_any_free, <- has_any_mentions.
  rewrite classify_weather_cases.
  split; (split; [intros E; apply tips_text_clothing in E|]).
  - apply clothing_line_hot in E.
    destruct (has_any rain_terms _), (has_any snow_terms _), (has_any clear_terms _),
      (num_gtb temperature 28), (num_ltb temperature 5), (num_ltb temperature 18);
      by try discriminate E.
  - by intros (-> & -> & -> & ->).
  - apply clothing_line_cold in E.
    destruct (has_any rain_terms _), (has_any snow_terms _), (has_any clear_terms _),
      (num_gtb temperature 28), (num_ltb temperature 5), (num_ltb temperature 18);
      by try discriminate E.
  - by intros ((-> & -> & ->) & ->).
Qed.

End Planning.

Lemma reserve_ignores_weather_witness :
  let sport :=
    {| a_name := py "Attività Sportive"; a_description := py "Ciclismo, jogging, sport";
       a_suitable_weather := [py "sunny"; py "mild"]; a_duration := py "1-3 ore";
       a_type := py "sport" |} in
  ¬ weather_suits rain sport
  ∧ ∃ selected,
      select_activities rain [py "sport"] (py "medium") = Ok selected ∧ sport ∈ selected.
Proof.
  intros sport. apply (reserve_ignores_weather rain [py "sport"] (py "medium") sport).
  - py_neq.
  - vm_compute. lia.
  - vm_compute. by repeat constructor.
  - by constructor.
Defined.

(** ** The travel server's [call_tool] as a whole *)

(** Decides a comparison of two literals met in the goal. *)
Ltac decide_literal :=
  match goal with
  | |- context [decide (py ?a = py ?b)] =>
      first
        [ constr_eq a b;
          let N := fresh "N" in
          destruct (decide (py a = py b)) as [_|N]; [|by destruct N]
        | let E := fresh "E" in
          destruct (decide (py a = py b)) as [E|_];
          [exfalso; vm_compute in E; discriminate E|] ]
  end.

Lemma head_app_l {A} (l k : list A) (x : A) : head l = Some x → head (l ++ k) = Some x.
Proof. by destruct l. Qed.

Lemma prefix_head {A} (l k : list A) (x : A) :
  head l = Some x → l `prefix_of` k → head k = Some x.
Proof. intros Hl [k' ->]. by apply head_app_l. Qed.

(** The text of an exception starts with the letter E. *)
Lemma travel_except_raise (e : exn) :
  py "Errore: " `prefix_of` travel_except (Raise e).
Proof. by apply prefix_app_r. Qed.

Lemma error_head (text : pystr) : py "Errore: " `prefix_of` text → head text = Some 69%N.
Proof. by apply prefix_head. Qed.

Lemma unknown_tool_head (name : pystr) : head (unknown_tool name) = Some 83%N.
Proof. by apply head_app_l. Qed.

Section Dispatch.
Context `{Python}.

Lemma travel_call_tool_suggest_activities (arguments : travel_arguments) :
  travel_call_tool (py "suggest_activities") arguments =
    suggest_activities
      {| sa_location := t_location arguments;
         sa_weather_condition := t_weather_condition arguments;
         sa_temperature := t_temperature arguments;
         sa_preferences := t_preferences arguments;
         sa_duration := t_duration arguments |}.
Proof. unfold travel_call_tool. by decide_literal. Qed.

Lemma travel_call_tool_suggest_restaurants (arguments : travel_arguments) :
  travel_call_tool (py "suggest_restaurants") arguments =
    suggest_restaurants
      {| ra_location := t_location arguments;
         ra_meal_type := t_meal_type arguments;
         ra_cuisine_type := t_cuisine_type arguments;
         ra_budget := t_budget arguments |}.
Proof. unfold travel_call_tool. by do 2 decide_literal. Qed.

Lemma travel_call_tool_create_itinerary (arguments : travel_arguments) :
  travel_call_tool (py "create_itinerary") arguments =
    create_itinerary
      {| ia_location := t_location arguments;
         ia_activities := t_activities arguments;
         ia_restaurants := t_restaurants arguments;
         ia_start_time := t_start_time arguments |}.
Proof. unfold travel_call_tool. by do 3 decide_literal. Qed.

Lemma travel_call_tool_get_travel_tips (arguments : travel_arguments) :
  travel_call_tool (py "get_travel_tips") arguments =
    get_travel_tips
      {| tip_location := t_location arguments;
         tip_weather_condition := t_weather_condition arguments;
         tip_temperature := t_temperature arguments |}.
Proof. unfold travel_call_tool. by do 4 decide_literal. Qed.

(** The four answers begin with an asterisk or a hash sign. *)
Lemma activities_text_head (location weather_condition : pystr) (temperature : number)
    (indoor : bool) (shown : list activity) :
  head (activities_text location weather_condition temperature indoor shown) = Some 42%N.
Proof. unfold activities_text. cbv zeta. by do 4 apply head_app_l. Qed.

Lemma restaurants_text_head (location meal_type budget : pystr) (shown : list restaurant) :
  head (restaurants_text location meal_type budget shown) = Some 42%N.
Proof. unfold restaurants_text. cbv zeta. by do 4 apply head_app_l. Qed.

Lemma itinerary_text_head (location start_time : pystr) (timeline : list slot) :
  head (itinerary_text location start_time timeline) = Some 35%N.
Proof. rewrite itinerary_text_tips. by apply head_app_l. Qed.

Lemma tips_text_head (location : pystr) (weather_class : category) :
  head (tips_text location weather_class) = Some 42%N.
Proof. unfold tips_text. cbv zeta. rewrite <- !app_assoc. by apply head_app_l. Qed.

(** With its required arguments, each tool answers with its text. *)
Lemma suggest_activities_ok (location weather_condition : pystr) (temperature : number)
    (preferences : option (list pystr)) (duration : option pystr) :
  ∃ shown,
    suggest_activities
      {| sa_location := Some location; sa_weather_condition := Some weather_condition;
         sa_temperature := Some temperature; sa_preferences := preferences;
         sa_duration := duration |}
    = activities_text location weather_condition temperature
        (prefer_indoor (classify_weather weather_condition temperature)) shown.
Proof.
  unfold suggest_activities, suggest_activities_body.
  cbn [subscript mbind res_bind sa_location sa_weather_condition sa_temperature
       sa_preferences sa_duration].
  rewrite select_activities_eq. cbv zeta.
  cbn [mbind res_bind travel_except]. by eexists.
Qed.

Lemma suggest_restaurants_ok (location : pystr) (meal_type cuisine_type budget : option pystr) :
  ∃ shown,
    suggest_restaurants
      {| ra_location := Some location; ra_meal_type := meal_type;
         ra_cuisine_type := cuisine_type; ra_budget := budget |}
    = restaurants_text location (default (py "lunch") meal_type) (default (py "€€") budget)
        shown.
Proof.
  unfold suggest_restaurants, suggest_restaurants_body.
  cbn [subscript mbind res_bind ra_location ra_meal_type ra_cuisine_type ra_budget].
  rewrite restaurants_at_spec.
  cbn [mbind res_bind travel_except]. by eexists.
Qed.

Lemma create_itinerary_ok (location : pystr) (activities : list pystr)
    (restaurants : option (list pystr)) (start_time : option pystr) :
  ∃ timeline,
    build_timeline activities (default [] restaurants) = Ok timeline
    ∧ create_itinerary
        {| ia_location := Some location; ia_activities := Some activities;
           ia_restaurants := restaurants; ia_start_time := start_time |}
      = itinerary_text location (default (py "09:00") start_time) timeline.
Proof.
  destruct (timeline_loop_spec (take 3 activities) (default [] restaurants) 0 [])
    as (added & Hloop & _).
  { rewrite length_take. lia. }
  exists added. split; [exact Hloop|].
  unfold create_itinerary, create_itinerary_body.
  cbn [subscript mbind res_bind ia_location ia_activities ia_restaurants ia_start_time].
  unfold build_timeline. rewrite Hloop. reflexivity.
Qed.

Lemma travel_supplied_location (arguments : travel_arguments) :
  travel_supplied (py "location") arguments = bool_decide (is_Some (t_location arguments)).
Proof. unfold travel_supplied. by decide_literal. Qed.

Lemma travel_supplied_weather_condition (arguments : travel_arguments) :
  travel_supplied (py "weather_condition") arguments
  = bool_decide (is_Some (t_weather_condition arguments)).
Proof. unfold travel_supplied. by do 2 decide_literal. Qed.

Lemma travel_supplied_temperature (arguments : travel_arguments) :
  travel_supplied (py "temperature") arguments
  = bool_decide (is_Some (t_temperature arguments)).
Proof. unfold travel_supplied. by do 3 decide_literal. Qed.

Lemma travel_supplied_activities (arguments : travel_arguments) :
  travel_supplied (py "activities") arguments
  = bool_decide (is_Some (t_activities arguments)).
Proof. unfold travel_supplied. by do 9 decide_literal. Qed.

Lemma not_error (text : pystr) (c : N) :
  head text = Some c → c ≠ 69%N → ¬ py "Errore: " `prefix_of` text.
Proof. intros Hh Hc Hp. apply error_head in Hp. congruence. Qed.

(** X5. For each tool the travel server lists, a call fails exactly when one
    of the keys the tool's schema requires is missing from the arguments, and
    the error text then names the first of the missing keys, in the order of
    the schema; with every required key there, the answer is not an error
    text, whatever the optional keys. *)
Theorem travel_required_keys (t : tool) (arguments : travel_arguments) :
  t ∈ travel_list_tools →
  match filter (λ key, travel_supplied key arguments = false) (tool_required t) with
  | [] => ¬ py "Errore: " `prefix_of` travel_call_tool (tool_name t) arguments
  | key :: _ =>
      travel_call_tool (tool_name t) arguments = py "Errore: " ++ py "'" ++ key ++ py "'"
  end.
Proof.
  intros Hin. unfold travel_list_tools in Hin.
  repeat (apply elem_of_cons in Hin as [->|Hin]); [| | | |by apply elem_of_nil in Hin].
  all: cbn [tool_name tool_required].
  all: rewrite ?filter_cons, ?filter_nil.
  - rewrite travel_supplied_location, travel_supplied_weather_condition,
      travel_supplied_temperature, travel_call_tool_suggest_activities.
    destruct arguments as [[location|] [condition|] [temperature|] preferences duration
                            ? ? ? ? ? ?];
      cbn [t_location t_weather_condition t_temperature t_preferences t_duration];
      try reflexivity.
    destruct (suggest_activities_ok location condition temperature preferences duration)
      as [shown ->].
    eapply not_error; [apply activities_text_head | done].
  - rewrite travel_supplied_location, travel_call_tool_suggest_restaurants.
    destruct arguments as [[location|] ? ? ? ? meal_type cuisine_type budget ? ? ?];
      cbn [t_location t_meal_type t_cuisine_type t_budget];
      try reflexivity.
    destruct (suggest_restaurants_ok location meal_type cuisine_type budget)
      as [shown ->].
    eapply not_error; [apply restaurants_text_head | done].
  - rewrite travel_supplied_location, travel_supplied_activities,
      travel_call_tool_create_itinerary.
    destruct arguments as [[location|] ? ? ? ? ? ? ? [activities|] restaurants start_time];
      cbn [t_location t_activities t_restaurants t_start_time];
      try reflexivity.
    destruct (create_itinerary_ok location activities restaurants start_time)
      as (timeline & _ & ->).
    eapply not_error; [apply itinerary_text_head | done].
  - rewrite travel_supplied_location, travel_supplied_weather_condition,
      travel_supplied_temperature, travel_call_tool_get_travel_tips.
    destruct arguments as [[location|] [condition|] [temperature|] preferences duration
                            ? ? ? ? ? ?];
      cbn [t_location t_weather_condition t_temperature];
      try reflexivity.
    eapply not_error; [apply tips_text_head | done].
Qed.

(** The answer of a listed tool begins with an asterisk, a hash sign or the
    letter E of an error. *)
Lemma travel_answer_head (t : tool) (arguments : travel_arguments) :
  t ∈ travel_list_tools →
  ∃ c, head (travel_call_tool (tool_name t) arguments) = Some c ∧ c ≠ 83%N.
Proof.
  intros Hin. unfold travel_list_tools in Hin.
  repeat (apply elem_of_cons in Hin as [->|Hin]); [| | | |by apply elem_of_nil in Hin].
  all: cbn [tool_name].
  - rewrite travel_call_tool_suggest_activities.
    destruct arguments as [[location|] [condition|] [temperature|] preferences duration
                            ? ? ? ? ? ?];
      cbn [t_location t_weather_condition t_temperature t_preferences t_duration];
      try (exists 69%N; split; [apply error_head, travel_except_raise | done]).
    destruct (suggest_activities_ok location condition temperature preferences duration)
      as [shown ->].
    exists 42%N. split; [apply activities_text_head | done].
  - rewrite travel_call_tool_suggest_restaurants.
    destruct arguments as [[location|] ? ? ? ? meal_type cuisine_type budget ? ? ?];
      cbn [t_location t_meal_type t_cuisine_type t_budget];
      try (exists 69%N; split; [apply error_head, travel_except_raise | done]).
    destruct (suggest_restaurants_ok location meal_type cuisine_type budget)
      as [shown ->].
    exists 42%N. split; [apply restaurants_text_head | done].
  - rewrite travel_call_tool_create_itinerary.
    destruct arguments as [[location|] ? ? ? ? ? ? ? [activities|] restaurants start_time];
      cbn [t_location t_activities t_restaurants t_start_time];
      try (exists 69%N; split; [apply error_head, travel_except_raise | done]).
    destruct (create_itinerary_ok location activities restaurants start_time)
      as (timeline & _ & ->).
    exists 35%N. split; [apply itinerary_text_head | done].
  - rewrite travel_call_tool_get_travel_tips.
    destruct arguments as [[location|] [condition|] [temperature|] ? ? ? ? ? ? ? ?];
      cbn [t_location t_weather_condition t_temperature];
      try (exists 69%N; split; [apply error_head, travel_except_raise | done]).
    exists 42%N. split; [apply tips_text_head | done].
Qed.

Lemma travel_call_tool_listed (name : pystr) (arguments : travel_arguments) :
  name ∈ tool_name <$> travel_list_tools →
  travel_call_tool name arguments ≠ unknown_tool name.
Proof.
  intros Hin E. apply list_elem_of_fmap in Hin as (t & -> & Ht).
  destruct (travel_answer_head t arguments Ht) as (c & Hc & Hne).
  rewrite E, unknown_tool_head in Hc. congruence.
Qed.

Lemma travel_call_tool_unlisted (name : pystr) (arguments : travel_arguments) :
  name ∉ tool_name <$> travel_list_tools →
  travel_call_tool name arguments = unknown_tool name.
Proof.
  intros Hnot. unfold travel_call_tool.
  unfold travel_list_tools in Hnot. cbn [fmap list_fmap tool_name] in Hnot.
  destruct (decide (name = py "suggest_activities")) as [E|_];
    [destruct Hnot; rewrite E; apply list_elem_of_here|].
  destruct (decide (name = py "suggest_restaurants")) as [E|_];
    [destruct Hnot; rewrite E; do 1 apply list_elem_of_further; apply list_elem_of_here|].
  destruct (decide (name = py "create_itinerary")) as [E|_];
    [destruct Hnot; rewrite E; do 2 apply list_elem_of_further; apply list_elem_of_here|].
  destruct (decide (name = py "get_travel_tips")) as [E|_];
    [destruct Hnot; rewrite E; do 3 apply list_elem_of_further; apply list_elem_of_here|].
  reflexivity.
Qed.

(** X6. The names the travel server lists are exactly the names its
    [call_tool] serves: for a listed name the answer is never the text
    "Strumento sconosciuto: <name>", whatever the arguments, and for every
    other name it is that text. *)
Theorem travel_call_tool_known (name : pystr) (arguments : travel_arguments) :
  (name ∈ tool_name <$> travel_list_tools ↔
     travel_call_tool name arguments ≠ unknown_tool name)
  ∧ (name ∉ tool_name <$> travel_list_tools ↔
       travel_call_tool name arguments = unknown_tool name).
Proof.
  pose proof (travel_call_tool_listed name arguments) as Hknown.
  pose proof (travel_call_tool_unlisted name arguments) as Hunknown.
  split; split; try done.
  - intros Hne. destruct (decide (name ∈ tool_name <$> travel_list_tools)) as [|Hnot]; [done|].
    by destruct Hne, Hunknown.
  - intros E Hin. by apply Hknown in Hin.
Qed.

(** The arguments of each tool once its declared defaults are filled in. *)
Lemma travel_fill_defaults_eq (t : tool) (arguments : travel_arguments) :
  t ∈ travel_list_tools →
  travel_fill_defaults t arguments =
    {| t_location := t_location arguments;
       t_weather_condition := t_weather_condition arguments;
       t_temperature := t_temperature arguments;
       t_preferences :=
         if decide (tool_name t = py "suggest_activities")
         then or_else (t_preferences arguments) [] else t_preferences arguments;
       t_duration :=
         if decide (tool_name t = py "suggest_activities")
         then or_else (t_duration arguments) (py "medium") else t_duration arguments;
       t_meal_type :=
         if decide (tool_name t = py "suggest_restaurants")
         then or_else (t_meal_type arguments) (py "lunch") else t_meal_type arguments;
       t_cuisine_type :=
         if decide (tool_name t = py "suggest_restaurants")
         then or_else (t_cuisine_type arguments) (py "tradizionale")
         else t_cuisine_type arguments;
       t_budget :=
         if decide (tool_name t = py "suggest_restaurants")
         then or_else (t_budget arguments) (py "€€") else t_budget arguments;
       t_activities := t_activities arguments;
       t_restaurants := t_restaurants arguments;
       t_start_time :=
         if decide (tool_name t = py "create_itinerary")
         then or_else (t_start_time arguments) (py "09:00") else t_start_time arguments |}.
Proof.
  intros Hin. unfold travel_list_tools in Hin.
  repeat (apply elem_of_cons in Hin as [->|Hin]); [| | | |by apply elem_of_nil in Hin].
  all: unfold travel_fill_defaults;
    cbn [tool_name tool_properties foldr plain with_default choice prop_default prop_name];
    unfold travel_setdefault;
    cbn [t_location t_weather_condition t_temperature t_preferences t_duration t_meal_type
         t_cuisine_type t_budget t_activities t_restaurants t_start_time];
    repeat decide_literal; by destruct arguments.
Qed.

(** X7. The defaults the schemas of the travel tools declare are the ones
    the handlers apply: filling in the declared default for every optional
    key the caller left out does not change the answer of any listed tool. *)
Theorem travel_defaults_agree (t : tool) (arguments : travel_arguments) :
  t ∈ travel_list_tools →
  travel_call_tool (tool_name t) (travel_fill_defaults t arguments)
  = travel_call_tool (tool_name t) arguments.
Proof.
  intros Hin. rewrite (travel_fill_defaults_eq t arguments Hin).
  unfold travel_list_tools in Hin.
  repeat (apply elem_of_cons in Hin as [->|Hin]); [| | | |by apply elem_of_nil in Hin].
  all: cbn [tool_name]; repeat decide_literal.
  - rewrite !travel_call_tool_suggest_activities.
    destruct arguments as [? ? ? [preferences|] [duration|] ? ? ? ? ? ?]; reflexivity.
  - rewrite !travel_call_tool_suggest_restaurants.
    destruct arguments as [[location|] ? ? ? ? [meal_type|] [cuisine_type|] [budget|] ? ? ?];
      reflexivity.
  - rewrite !travel_call_tool_create_itinerary.
    destruct arguments as [? ? ? ? ? ? ? ? ? ? [start_time|]]; reflexivity.
  - rewrite !travel_call_tool_get_travel_tips. by destruct arguments.
Qed.

End Dispatch.

Lemma travel_required_keys_witness :
  let t :=
    {| tool_name := py "suggest_activities";
       tool_properties :=
         [plain "location" "string";
          plain "weather_condition" "string";
          plain "temperature" "number";
          {| prop_name := py "preferences"; prop_type := [py "array"]; prop_enum := None;
             prop_minimum := None; prop_maximum := None;
             prop_default := Some DefaultEmptyList |};
          with_default "duration" "string" "medium"];
       tool_required := [py "location"; py "weather_condition"; py "temperature"] |} in
  let arguments :=
    {| t_location := Some (py "Roma"); t_weather_condition := None;
       t_temperature := Some (Int 21); t_preferences := None; t_duration := None;
       t_meal_type := None; t_cuisine_type := None; t_budget := None;
       t_activities := None; t_restaurants := None; t_start_time := None |} in
  match filter (λ key, travel_supplied key arguments = false) (tool_required t) with
  | [] => ¬ py "Errore: " `prefix_of` @travel_call_tool example_python (tool_name t) arguments
  | key :: _ =>
      @travel_call_tool example_python (tool_name t) arguments
      = py "Errore: " ++ py "'" ++ key ++ py "'"
  end.
Proof.
  intros t arguments. apply (@travel_required_keys example_python t arguments).
  unfold travel_list_tools. apply list_elem_of_here.
Defined.

Lemma travel_defaults_agree_witness :
  let t :=
    {| tool_name := py "suggest_activities";
       tool_properties :=
         [plain "location" "string";
          plain "weather_condition" "string";
          plain "temperature" "number";
          {| prop_name := py "preferences"; prop_type := [py "array"]; prop_enum := None;
             prop_minimum := None; prop_maximum := None;
             prop_default := Some DefaultEmptyList |};
          with_default "duration" "string" "medium"];
       tool_required := [py "location"; py "weather_condition"; py "temperature"] |} in
  let arguments :=
    {| t_location := Some (py "Roma"); t_weather_condition := Some (py "Light rain");
       t_temperature := Some (Int 12); t_preferences := None; t_duration := None;
       t_meal_type := None; t_cuisine_type := None; t_budget := None;
       t_activities := None; t_restaurants := None; t_start_time := None |} in
  @travel_call_tool example_python (tool_name t) (travel_fill_defaults t arguments)
  = @travel_call_tool example_python (tool_name t) arguments.
Proof.
  intros t arguments. apply (@travel_defaults_agree example_python t arguments).
  unfold travel_list_tools. apply list_elem_of_here.
Defined.

(** ** create_itinerary: the hours of the timeline *)

Lemma times_drop (i : nat) :
  i < 3 →
  ∃ t t', item times (i * 2) = Ok t ∧ item times (i * 2 + 1) = Ok t'
          ∧ drop (i * 2) times = t :: t' :: drop (S i * 2) times.
Proof.
  intros Hi. destruct i as [|[|[|i]]]; [| | |lia]; by eexists _, _.
Qed.

(** The loop adds its entries at hours taken in order from [times], the
    first of them at the hour of its first index. *)
Lemma timeline_loop_times (rest restaurants : list pystr) :
  ∀ (i : nat) (timeline : list slot),
    i + length rest ≤ 3 →
    ∃ added,
      timeline_loop i rest restaurants timeline = Ok (timeline ++ added)
      ∧ slot_time <$> added `sublist_of` drop (i * 2) times
      ∧ match rest with
        | [] => added = []
        | _ :: _ => Ok <$> (slot_time <$> head added) = Some (item times (i * 2))
        end.
Proof.
  induction rest as [|a rest IH]; intros i timeline Hi.
  - exists []. split_and!; [by rewrite app_nil_r | apply sublist_nil_l | done].
  - cbn [length] in Hi. cbn [timeline_loop].
    destruct (times_drop i) as (t & t' & Ht & Ht' & Hdrop); [lia|].
    rewrite Ht, Hdrop. cbn [mbind res_bind].
    destruct (decide (i < length restaurants)) as [Hlen|Hlen].
    + rewrite Ht'. cbn [mbind res_bind].
      destruct (lookup_lt_is_Some_2 restaurants i Hlen) as [r Hr].
      unfold item at 1. rewrite Hr. cbn [mbind res_bind].
      edestruct (IH (S i)) as (added & Hloop & Hsub & _); [lia|].
      rewrite Hloop.
      eexists ([_; _] ++ added). split_and!.
      * by rewrite <- !app_assoc.
      * cbn [app fmap list_fmap slot_time]. by do 2 apply sublist_skip.
      * reflexivity.
    + edestruct (IH (S i)) as (added & Hloop & Hsub & _); [lia|].
      rewrite Hloop.
      eexists ([_] ++ added). split_and!.
      * by rewrite <- !app_assoc.
      * cbn [app fmap list_fmap slot_time]. by apply sublist_skip, sublist_cons.
      * reflexivity.
Qed.

(** X8. [create_itinerary] never fails once the location and the activities
    are given.  The hours of its timeline are taken in order from 09:00,
    11:00, 13:00, 15:00, 17:00 and 19:00, none of them twice; the first entry
    of an itinerary with an activity is at 09:00 whatever [start_time] says,
    which only appears in the heading. *)
Theorem create_itinerary_hours (location : pystr) (activities : list pystr)
    (restaurants : option (list pystr)) (start_time : option pystr) :
  ∃ timeline,
    build_timeline activities (default [] restaurants) = Ok timeline
    ∧ create_itinerary
        {| ia_location := Some location; ia_activities := Some activities;
           ia_restaurants := restaurants; ia_start_time := start_time |}
      = itinerary_text location (default (py "09:00") start_time) timeline
    ∧ slot_time <$> timeline `sublist_of` times
    ∧ NoDup (slot_time <$> timeline)
    ∧ match activities with
      | [] => timeline = []
      | _ :: _ => slot_time <$> head timeline = Some (py "09:00")
      end.
Proof.
  destruct (timeline_loop_times (take 3 activities) (default [] restaurants) 0 [])
    as (added & Hloop & Hsub & Hhead).
  { rewrite length_take. lia. }
  exists added.
  assert (build_timeline activities (default [] restaurants) = Ok added) as Hbuild
    by exact Hloop.
  split_and!.
  - exact Hbuild.
  - unfold create_itinerary, create_itinerary_body.
    cbn [subscript mbind res_bind ia_location ia_activities ia_restaurants ia_start_time].
    by rewrite Hbuild.
  - exact Hsub.
  - eapply sublist_NoDup; [|exact Hsub].
    apply (bool_decide_unpack _). by vm_compute.
  - destruct activities as [|a activities]; [exact Hhead|].
    cbn [take] in Hhead. destruct (head added) as [s|]; [|done].
    change (item times (0 * 2)) with (Ok (py "09:00")) in Hhead.
    cbn [fmap option_fmap option_map] in Hhead |- *. congruence.
Qed.

(** * Further properties of the weather server *)

Section WeatherTools.
Context `{Provider}.

Lemma call_tool_with_key (API_KEY name : pystr) (arguments : arguments) :
  API_KEY ≠ [] →
  call_tool API_KEY name arguments = io_map weather_except (dispatch API_KEY name arguments).
Proof. intros Hkey. unfold call_tool. by destruct (decide (API_KEY = [])). Qed.

Lemma payload_make_request (network : url → reply) (u : url) (format : json → res pystr) :
  payload network (make_request u format) =
    match network u with
    | Body data => format data
    | Status msg status_code error => Raise (HTTPStatusError msg status_code error)
    | Failure msg => Raise (OtherError msg)
    end.
Proof. unfold payload, make_request. simpl. by destruct (network u). Qed.

(** [build_url] puts the key last. *)
Lemma build_url_last (API_KEY endpoint : pystr) (params : list (pystr * option pystr)) :
  last (url_query (build_url API_KEY endpoint params)) = Some (py "key", API_KEY).
Proof. unfold build_url. cbn [url_query]. rewrite omap_app. apply last_snoc. Qed.

(** The [try] block either ends before any request, with the text for an
    unknown name or with a [KeyError] or a [ValueError], or it issues the
    request of the tool's endpoint and formats the body. *)
Lemma dispatch_shape (API_KEY name : pystr) (arguments : arguments) :
  (∃ r, dispatch API_KEY name arguments = Ret r
        ∧ (r = Ok (unknown_tool name) ∨ (∃ key, r = Raise (KeyError key))
           ∨ ∃ msg, r = Raise (ValueError msg)))
  ∨ (∃ u, dispatch API_KEY name arguments = make_request u (format_body name arguments)
          ∧ (name, url_endpoint u) ∈ tool_endpoint
          ∧ last (url_query u) = Some (py "key", API_KEY)).
Proof.
  unfold dispatch, tool_endpoint.
  destruct (decide (name = py "get_current_weather")) as [E|_].
  { destruct (arg_q arguments) as [q|]; cbn [subscript try_then].
    - right. eexists. split_and!; [reflexivity | | apply build_url_last].
      rewrite E. apply list_elem_of_here.
    - left. eexists. split; [reflexivity|]. right. left. by eexists. }
  destruct (decide (name = py "get_forecast")) as [E|_].
  { assert (∀ days : Z,
      (∃ r, try_then (subscript "q" (arg_q arguments)) (λ q,
              make_request
                (build_url API_KEY (py "forecast")
                   [(py "q", Some q);
                    (py "days", Some (str_of_Z days));
                    (py "aqi", Some (default (py "no") (arg_aqi arguments)));
                    (py "alerts", Some (default (py "yes") (arg_alerts arguments)));
                    (py "lang", Some (default (py "en") (arg_lang arguments)))])
                (format_body name arguments)) = Ret r
            ∧ (r = Ok (unknown_tool name) ∨ (∃ key, r = Raise (KeyError key))
               ∨ ∃ msg, r = Raise (ValueError msg)))
      ∨ (∃ u, try_then (subscript "q" (arg_q arguments)) (λ q,
              make_request
                (build_url API_KEY (py "forecast")
                   [(py "q", Some q);
                    (py "days", Some (str_of_Z days));
                    (py "aqi", Some (default (py "no") (arg_aqi arguments)));
                    (py "alerts", Some (default (py "yes") (arg_alerts arguments)));
                    (py "lang", Some (default (py "en") (arg_lang arguments)))])
                (format_body name arguments)) = make_request u (format_body name arguments)
            ∧ (name, url_endpoint u)
                ∈ [(py "get_current_weather", py "current");
                   (py "get_forecast", py "forecast");
                   (py "get_history", py "history");
                   (py "search_location", py "search");
                   (py "get_astronomy", py "astronomy")]
            ∧ last (url_query u) = Some (py "key", API_KEY))) as Hq.
    { intros days. destruct (arg_q arguments) as [q|]; cbn [subscript try_then].
      - right. eexists. split_and!; [reflexivity | | apply build_url_last].
        rewrite E. apply list_elem_of_further, list_elem_of_here.
      - left. eexists. split; [reflexivity|]. right. left. by eexists. }
    destruct (arg_days arguments) as [[n|s]|]; cbn [try_then]; [apply Hq | | apply Hq].
    destruct (py_int s) as [n|e] eqn:Hint; cbn [try_then]; [apply Hq|].
    destruct (py_int_raise s e Hint) as [msg ->].
    left. eexists. split; [reflexivity|]. right. right. by eexists. }
  destruct (decide (name = py "get_history")) as [E|_].
  { destruct (arg_q arguments) as [q|]; cbn [subscript try_then];
      [|left; eexists; split; [reflexivity|]; right; left; by eexists].
    destruct (arg_dt arguments) as [dt|]; cbn [subscript try_then];
      [|left; eexists; split; [reflexivity|]; right; left; by eexists].
    right. eexists. split_and!; [reflexivity | | apply build_url_last].
    rewrite E. do 2 apply list_elem_of_further. apply list_elem_of_here. }
  destruct (decide (name = py "search_location")) as [E|_].
  { destruct (arg_q arguments) as [q|]; cbn [subscript try_then];
      [|left; eexists; split; [reflexivity|]; right; left; by eexists].
    right. eexists. split_and!; [reflexivity | | apply build_url_last].
    rewrite E. do 3 apply list_elem_of_further. apply list_elem_of_here. }
  destruct (decide (name = py "get_astronomy")) as [E|_].
  { destruct (arg_q arguments) as [q|]; cbn [subscript try_then];
      [|left; eexists; split; [reflexivity|]; right; left; by eexists].
    right. eexists. split_and!; [reflexivity | | apply build_url_last].
    rewrite E. do 4 apply list_elem_of_further. apply list_elem_of_here. }
  left. eexists. split; [reflexivity|]. by left.
Qed.

(** X9. Whatever the key, the name, the arguments and the network, a call
    issues at most one request.  When it issues one, the key is set, the
    request goes to the endpoint of the tool called and carries the key as
    the last entry of its query; the answer is then the formatted body, the
    text "Errore HTTP <code>" (followed by the message of the provider, or by
    "Errore sconosciuto" when the error carries none) for an error status,
    and "Errore: <text>" for any other failure: no reply makes the call
    raise. *)
Theorem call_tool_request (API_KEY name : pystr) (arguments : arguments)
    (network : url → reply) (u : url) :
  u ∈ requests network (call_tool API_KEY name arguments) →
  requests network (call_tool API_KEY name arguments) = [u]
  ∧ API_KEY ≠ []
  ∧ (name, url_endpoint u) ∈ tool_endpoint
  ∧ last (url_query u) = Some (py "key", API_KEY)
  ∧ payload network (call_tool API_KEY name arguments) =
      match network u with
      | Body data => weather_except (format_body name arguments data)
      | Status _ status_code None => py "Errore HTTP " ++ str_of_Z status_code
      | Status _ status_code (Some message) =>
          (py "Errore HTTP " ++ str_of_Z status_code) ++ py ": "
          ++ default (py "Errore sconosciuto") message
      | Failure msg => py "Errore: " ++ msg
      end.
Proof.
  intros Hu. destruct (decide (API_KEY = [])) as [Hkey|Hkey].
  { rewrite Hkey, call_tool_no_key, requests_ret in Hu. by apply elem_of_nil in Hu. }
  rewrite call_tool_with_key in Hu |- * by done.
  rewrite requests_io_map in Hu. rewrite requests_io_map, payload_io_map.
  destruct (dispatch_shape API_KEY name arguments)
    as [(r & Hd & _)|(u' & Hd & Hendpoint & Hlast)]; rewrite Hd in Hu |- *.
  { rewrite requests_ret in Hu. by apply elem_of_nil in Hu. }
  rewrite requests_make_request in Hu |- *. apply list_elem_of_singleton in Hu as ->.
  rewrite payload_make_request.
  split_and!; try done.
  by destruct (network u') as [data|msg status_code [message|]|msg].
Qed.

(** The [try] block, by tool. *)
Lemma dispatch_get_current_weather (API_KEY : pystr) (arguments : arguments) :
  dispatch API_KEY (py "get_current_weather") arguments =
    try_then (subscript "q" (arg_q arguments)) (λ q,
      make_request
        (build_url API_KEY (py "current")
           [(py "q", Some q);
            (py "aqi", Some (default (py "no") (arg_aqi arguments)));
            (py "lang", Some (default (py "en") (arg_lang arguments)))])
        (format_body (py "get_current_weather") arguments)).
Proof. unfold dispatch. by decide_literal. Qed.

Lemma dispatch_get_history (API_KEY : pystr) (arguments : arguments) :
  dispatch API_KEY (py "get_history") arguments =
    try_then (subscript "q" (arg_q arguments)) (λ q,
    try_then (subscript "dt" (arg_dt arguments)) (λ dt,
      make_request
        (build_url API_KEY (py "history")
           [(py "q", Some q);
            (py "dt", Some dt);
            (py "end_dt", arg_end_dt arguments);
            (py "lang", Some (default (py "en") (arg_lang arguments)))])
        (format_body (py "get_history") arguments))).
Proof. unfold dispatch. by do 3 decide_literal. Qed.

Lemma dispatch_search_location (API_KEY : pystr) (arguments : arguments) :
  dispatch API_KEY (py "search_location") arguments =
    try_then (subscript "q" (arg_q arguments)) (λ q,
      make_request (build_url API_KEY (py "search") [(py "q", Some q)])
        (format_body (py "search_location") arguments)).
Proof. unfold dispatch. by do 4 decide_literal. Qed.

Lemma dispatch_get_astronomy (API_KEY : pystr) (arguments : arguments) :
  dispatch API_KEY (py "get_astronomy") arguments =
    try_then (subscript "q" (arg_q arguments)) (λ q,
      make_request
        (build_url API_KEY (py "astronomy") [(py "q", Some q); (py "dt", arg_dt arguments)])
        (format_body (py "get_astronomy") arguments)).
Proof. unfold dispatch. by do 5 decide_literal. Qed.

Lemma supplied_q (arguments : arguments) :
  supplied (py "q") arguments = bool_decide (is_Some (arg_q arguments)).
Proof. unfold supplied. by decide_literal. Qed.

Lemma supplied_dt (arguments : arguments) :
  supplied (py "dt") arguments = bool_decide (is_Some (arg_dt arguments)).
Proof. unfold supplied. by do 6 decide_literal. Qed.

Lemma not_supplied {A} (field : option A) : bool_decide (is_Some field) = false → field = None.
Proof. by destruct field. Qed.

(** An exception raised before the request gives its text and no request. *)
Lemma missing_key_answer (network : url → reply) (key : string) :
  requests network (io_map weather_except (Ret (Raise (KeyError (py key))))) = []
  ∧ py "Errore: " `prefix_of`
      payload network (io_map weather_except (Ret (Raise (KeyError (py key))))).
Proof. split; [reflexivity|]. by apply prefix_app_r. Qed.

(** X10. With the key set, a call of a listed weather tool that lacks a key
    its schema requires ([q] for all five, [dt] too for [get_history]) issues
    no request and answers with a text that begins with "Errore: ". *)
Theorem weather_required_keys (t : tool) (API_KEY : pystr) (arguments : arguments)
    (network : url → reply) (key : pystr) :
  t ∈ list_tools →
  API_KEY ≠ [] →
  key ∈ tool_required t →
  supplied key arguments = false →
  requests network (call_tool API_KEY (tool_name t) arguments) = []
  ∧ py "Errore: " `prefix_of` payload network (call_tool API_KEY (tool_name t) arguments).
Proof.
  intros Hin Hkey Hreq Hs. rewrite call_tool_with_key by done.
  unfold list_tools in Hin.
  repeat (apply elem_of_cons in Hin as [->|Hin]); [| | | | |by apply elem_of_nil in Hin].
  all: cbn [tool_name tool_required] in Hreq |- *.
  all: repeat (apply elem_of_cons in Hreq as [->|Hreq]); try by apply elem_of_nil in Hreq.
  - rewrite supplied_q in Hs. apply not_supplied in Hs.
    rewrite dispatch_get_current_weather, Hs. apply missing_key_answer.
  - rewrite supplied_q in Hs. apply not_supplied in Hs.
    rewrite dispatch_get_forecast, Hs.
    destruct (arg_days arguments) as [[n|s]|]; [apply missing_key_answer | |
                                                 apply missing_key_answer].
    destruct (py_int s) as [n|e] eqn:Hint; [apply missing_key_answer|].
    destruct (py_int_raise s e Hint) as [msg ->].
    split; [reflexivity|]. by apply prefix_app_r.
  - rewrite supplied_q in Hs. apply not_supplied in Hs.
    rewrite dispatch_get_history, Hs. apply missing_key_answer.
  - rewrite supplied_dt in Hs. apply not_supplied in Hs.
    rewrite dispatch_get_history, Hs.
    destruct (arg_q arguments) as [q|]; apply missing_key_answer.
  - rewrite supplied_q in Hs. apply not_supplied in Hs.
    rewrite dispatch_search_location, Hs. apply missing_key_answer.
  - rewrite supplied_q in Hs. apply not_supplied in Hs.
    rewrite dispatch_get_astronomy, Hs. apply missing_key_answer.
Qed.

Lemma supplied_required_q (required : list pystr) (arguments : arguments) :
  py "q" ∈ required →
  (∀ key, key ∈ required → supplied key arguments = true) →
  ∃ q, arg_q arguments = Some q.
Proof.
  intros Hin Hall. specialize (Hall _ Hin). rewrite supplied_q in Hall.
  apply bool_decide_eq_true in Hall as [q Hq]. by exists q.
Qed.

(** X11. With the key set, every required key supplied and, for
    [get_forecast], a [days] that is an integer (of 640 digits at most, which
    every interpreter prints) or a string from which [int()] returns an
    integer, a call of a listed weather tool issues exactly one request,
    whose query has, in the order of the schema, the declared properties
    that the caller supplied or that declare a default, and then the key:
    what the schema declares is what the provider is sent. *)
Theorem weather_query_keys (t : tool) (API_KEY : pystr) (arguments : arguments)
    (network : url → reply) :
  t ∈ list_tools →
  API_KEY ≠ [] →
  (∀ key, key ∈ tool_required t → supplied key arguments = true) →
  (∀ s, arg_days arguments = Some (DaysStr s) → ∃ n, py_int s = Ok n) →
  (∀ n, arg_days arguments = Some (DaysInt n) → length (str_of_Z n) ≤ 640) →
  ∃ u,
    requests network (call_tool API_KEY (tool_name t) arguments) = [u]
    ∧ (url_query u).*1
      = (prop_name <$> filter (λ p, supplied (prop_name p) arguments = true
                                    ∨ is_Some (prop_default p)) (tool_properties t))
        ++ [py "key"].
Proof.
  intros Hin Hkey Hreq Hdays _. rewrite call_tool_with_key by done.
  rewrite requests_io_map.
  unfold list_tools in Hin.
  repeat (apply elem_of_cons in Hin as [->|Hin]); [| | | | |by apply elem_of_nil in Hin].
  all: cbn [tool_name tool_properties tool_required] in Hreq |- *.
  all: destruct (supplied_required_q _ arguments (list_elem_of_here _ _) Hreq) as [q Hq].
  - rewrite dispatch_get_current_weather, Hq. cbn [subscript try_then].
    rewrite requests_make_request. eexists. split; [reflexivity|].
    destruct arguments as [q0 days [aqi|] alerts [lang|] dt end_dt];
      cbn in Hq; subst q0; by vm_compute.
  - rewrite dispatch_get_forecast, Hq.
    assert (∃ n, match arg_days arguments with
                 | None => Ok 3%Z
                 | Some (DaysInt n) => Ok n
                 | Some (DaysStr s) => py_int s
                 end = Ok n) as [n ->].
    { destruct (arg_days arguments) as [[n|s]|] eqn:E; [by eexists | | by eexists].
      destruct (Hdays s eq_refl) as [n Hn]. by exists n. }
    cbn [subscript try_then]. rewrite requests_make_request. eexists. split; [reflexivity|].
    clear Hdays.
    destruct arguments as [q0 [days|] [aqi|] [alerts|] [lang|] dt end_dt];
      cbn in Hq; subst q0; by vm_compute.
  - assert (∃ dt, arg_dt arguments = Some dt) as [dt Hdt].
    { assert (supplied (py "dt") arguments = true) as Hs
        by apply Hreq, list_elem_of_further, list_elem_of_here.
      rewrite supplied_dt in Hs. apply bool_decide_eq_true in Hs as [dt Hdt]. by exists dt. }
    rewrite dispatch_get_history, Hq, Hdt. cbn [subscript try_then].
    rewrite requests_make_request. eexists. split; [reflexivity|].
    destruct arguments as [q0 days aqi alerts [lang|] dt0 [end_dt|]];
      cbn in Hq, Hdt; subst q0 dt0; by vm_compute.
  - rewrite dispatch_search_location, Hq. cbn [subscript try_then].
    rewrite requests_make_request. eexists. split; [reflexivity|].
    destruct arguments as [q0 days aqi alerts lang dt end_dt];
      cbn in Hq; subst q0; by vm_compute.
  - rewrite dispatch_get_astronomy, Hq. cbn [subscript try_then].
    rewrite requests_make_request. eexists. split; [reflexivity|].
    destruct arguments as [q0 days aqi alerts lang [dt|] end_dt];
      cbn in Hq; subst q0; by vm_compute.
Qed.

(** [setdefault] on the four keys that declare a default. *)
Lemma setdefault_aqi (s : pystr) (a : arguments) :
  setdefault (py "aqi") (DefaultStr s) a =
    {| arg_q := arg_q a; arg_days := arg_days a; arg_aqi := or_else (arg_aqi a) s;
       arg_alerts := arg_alerts a; arg_lang := arg_lang a; arg_dt := arg_dt a;
       arg_end_dt := arg_end_dt a |}.
Proof. cbn [setdefault]. by decide_literal. Qed.

Lemma setdefault_alerts (s : pystr) (a : arguments) :
  setdefault (py "alerts") (DefaultStr s) a =
    {| arg_q := arg_q a; arg_days := arg_days a; arg_aqi := arg_aqi a;
       arg_alerts := or_else (arg_alerts a) s; arg_lang := arg_lang a; arg_dt := arg_dt a;
       arg_end_dt := arg_end_dt a |}.
Proof. cbn [setdefault]. by do 2 decide_literal. Qed.

Lemma setdefault_lang (s : pystr) (a : arguments) :
  setdefault (py "lang") (DefaultStr s) a =
    {| arg_q := arg_q a; arg_days := arg_days a; arg_aqi := arg_aqi a;
       arg_alerts := arg_alerts a; arg_lang := or_else (arg_lang a) s; arg_dt := arg_dt a;
       arg_end_dt := arg_end_dt a |}.
Proof. cbn [setdefault]. by do 3 decide_literal. Qed.

Lemma setdefault_days (n : Z) (a : arguments) :
  setdefault (py "days") (DefaultInt n) a =
    {| arg_q := arg_q a; arg_days := or_else (arg_days a) (DaysInt n); arg_aqi := arg_aqi a;
       arg_alerts := arg_alerts a; arg_lang := arg_lang a; arg_dt := arg_dt a;
       arg_end_dt := arg_end_dt a |}.
Proof. cbn [setdefault]. by decide_literal. Qed.

(** X12. The defaults the schemas of the weather tools declare are the ones
    the handlers apply: filling in the declared default for every optional
    key the caller left out ([aqi], [alerts], [lang], [days]) does not change
    the requests of any listed tool. *)
Theorem weather_defaults_agree (t : tool) (API_KEY : pystr) (arguments : arguments)
    (network : url → reply) :
  t ∈ list_tools →
  requests network (call_tool API_KEY (tool_name t) (fill_defaults t arguments))
  = requests network (call_tool API_KEY (tool_name t) arguments).
Proof.
  intros Hin. unfold call_tool.
  destruct (decide (API_KEY = [])) as [|_]; [reflexivity|].
  rewrite !requests_io_map.
  unfold list_tools in Hin.
  repeat (apply elem_of_cons in Hin as [->|Hin]); [| | | | |by apply elem_of_nil in Hin].
  all: unfold fill_defaults;
    cbn [tool_name tool_properties foldr plain with_default choice prop_default prop_name].
  - rewrite setdefault_aqi, setdefault_lang, !dispatch_get_current_weather.
    destruct arguments as [[q|] days [aqi|] alerts [lang|] dt end_dt];
      cbn [arg_q arg_days arg_aqi arg_alerts arg_lang arg_dt arg_end_dt or_else
           subscript try_then];
      by rewrite ?requests_make_request.
  - rewrite setdefault_days, setdefault_aqi, setdefault_alerts, setdefault_lang,
      !dispatch_get_forecast.
    destruct arguments as [[q|] [[n|s]|] [aqi|] [alerts|] [lang|] dt end_dt];
      cbn [arg_q arg_days arg_aqi arg_alerts arg_lang arg_dt arg_end_dt or_else
           subscript try_then];
      try (by rewrite ?requests_make_request);
      destruct (py_int s) as [n|e]; cbn [try_then]; by rewrite ?requests_make_request.
  - rewrite setdefault_lang, !dispatch_get_history.
    destruct arguments as [[q|] days aqi alerts [lang|] [dt|] end_dt];
      cbn [arg_q arg_days arg_aqi arg_alerts arg_lang arg_dt arg_end_dt or_else
           subscript try_then];
      by rewrite ?requests_make_request.
  - rewrite !dispatch_search_location.
    destruct arguments as [[q|] days aqi alerts lang dt end_dt];
      cbn [arg_q subscript try_then];
      by rewrite ?requests_make_request.
  - rewrite !dispatch_get_astronomy.
    destruct arguments as [[q|] days aqi alerts lang dt end_dt];
      cbn [arg_q arg_dt subscript try_then];
      by rewrite ?requests_make_request.
Qed.

End WeatherTools.

Lemma weather_required_keys_witness :
  let t :=
    {| tool_name := py "get_current_weather";
       tool_properties :=
         [plain "q" "string";
          choice "aqi" ["yes"; "no"]%string "no";
          with_default "lang" "string" "en"];
       tool_required := [py "q"] |} in
  let arguments :=
    {| arg_q := None; arg_days := None; arg_aqi := Some (py "yes"); arg_alerts := None;
       arg_lang := None; arg_dt := None; arg_end_dt := None |} in
  @requests example_provider _ example_network
    (call_tool (py "secret") (tool_name t) arguments) = []
  ∧ py "Errore: " `prefix_of`
      @payload example_provider _ example_network
        (call_tool (py "secret") (tool_name t) arguments).
Proof.
  intros t arguments.
  apply (@weather_required_keys example_provider t (py "secret") arguments example_network
           (py "q")).
  - unfold list_tools. apply list_elem_of_here.
  - py_neq.
  - apply list_elem_of_here.
  - by vm_compute.
Defined.

Lemma weather_query_keys_witness :
  let t :=
    {| tool_name := py "get_forecast";
       tool_properties :=
         [plain "q" "string";
          {| prop_name := py "days"; prop_type := [py "integer"; py "string"];
             prop_enum := None; prop_minimum := Some 1%Z; prop_maximum := Some 14%Z;
             prop_default := Some (DefaultInt 3) |};
          choice "aqi" ["yes"; "no"]%string "no";
          choice "alerts" ["yes"; "no"]%string "yes";
          with_default "lang" "string" "en"];
       tool_required := [py "q"] |} in
  let arguments :=
    {| arg_q := Some (py "Rome"); arg_days := Some (DaysStr (py "7")); arg_aqi := None;
       arg_alerts := None; arg_lang := Some (py "it"); arg_dt := None; arg_end_dt := None |} in
  ∃ u,
    @requests example_provider _ example_network
      (call_tool (py "secret") (tool_name t) arguments) = [u]
    ∧ (url_query u).*1
      = (prop_name <$> filter (λ p, supplied (prop_name p) arguments = true
                                    ∨ is_Some (prop_default p)) (tool_properties t))
        ++ [py "key"].
Proof.
  intros t arguments.
  apply (@weather_query_keys example_provider t (py "secret") arguments example_network).
  - unfold list_tools. apply list_elem_of_further, list_elem_of_here.
  - py_neq.
  - intros key Hkey. apply list_elem_of_singleton in Hkey. rewrite Hkey. by vm_compute.
  - intros s Hs. injection Hs as <-. exists 7%Z. by vm_compute.
  - intros n Hn. discriminate Hn.
Defined.

Lemma weather_defaults_agree_witness :
  let t :=
    {| tool_name := py "get_current_weather";
       tool_properties :=
         [plain "q" "string";
          choice "aqi" ["yes"; "no"]%string "no";
          with_default "lang" "string" "en"];
       tool_required := [py "q"] |} in
  let arguments :=
    {| arg_q := Some (py "Rome"); arg_days := None; arg_aqi := None; arg_alerts := None;
       arg_lang := None; arg_dt := None; arg_end_dt := None |} in
  @requests example_provider _ example_network
    (call_tool (py "secret") (tool_name t) (fill_defaults t arguments))
  = @requests example_provider _ example_network
      (call_tool (py "secret") (tool_name t) arguments).
Proof.
  intros t arguments.
  apply (@weather_defaults_agree example_provider t (py "secret") arguments example_network).
  unfold list_tools. apply list_elem_of_here.
Defined.

Lemma call_tool_request_witness :
  let arguments :=
    {| arg_q := Some (py "Rome"); arg_days := None; arg_aqi := None; arg_alerts := None;
       arg_lang := None; arg_dt := None; arg_end_dt := None |} in
  let u :=
    {| url_endpoint := py "search";
       url_query := [(py "q", py "Rome"); (py "key", py "secret")] |} in
  @requests example_provider _ example_network
    (call_tool (py "secret") (py "search_location") arguments) = [u]
  ∧ py "secret" ≠ []
  ∧ (py "search_location", url_endpoint u) ∈ tool_endpoint
  ∧ last (url_query u) = Some (py "key", py "secret")
  ∧ @payload example_provider _ example_network
      (call_tool (py "secret") (py "search_location") arguments) =
      match example_network u with
      | Body data =>
          weather_except (@format_body example_provider (py "search_location") arguments data)
      | Status _ status_code None => py "Errore HTTP " ++ str_of_Z status_code
      | Status _ status_code (Some message) =>
          (py "Errore HTTP " ++ str_of_Z status_code) ++ py ": "
          ++ default (py "Errore sconosciuto") message
      | Failure msg => py "Errore: " ++ msg
      end.
Proof.
  intros arguments u.
  apply (@call_tool_request example_provider (py "secret") (py "search_location")
           arguments example_network u).
  vm_compute. apply list_elem_of_here.
Defined.

(** * Further properties of the chat front end *)

Section Streaming.
Context `{Frontend}.

(** X13. [stream_tool_call] appends to the message the heading with the name
    of the tool and the arguments, dumped as JSON, inside a fenced block;
    sending the dump one character at a time sends the whole dump, and the
    elements attached to the message are left as they were. *)
Theorem stream_tool_call_content (tool_name : pystr) (args : tool_args) (msg : cl_message) :
  msg_content (stream_tool_call tool_name args msg)
  = msg_content msg
    ++ (nl ++ nl ++ py "🔧 **Chiamata tool: `" ++ tool_name ++ py "`**" ++ nl ++ nl)
    ++ (py "```json" ++ nl) ++ json_dumps args ++ (nl ++ py "```" ++ nl ++ nl)
  ∧ msg_elements (stream_tool_call tool_name args msg) = msg_elements msg
  ∧ msg_content msg `prefix_of` msg_content (stream_tool_call tool_name args msg).
Proof.
  assert (msg_content (stream_tool_call tool_name args msg)
          = msg_content msg
            ++ (nl ++ nl ++ py "🔧 **Chiamata tool: `" ++ tool_name ++ py "`**" ++ nl ++ nl)
            ++ (py "```json" ++ nl) ++ json_dumps args ++ (nl ++ py "```" ++ nl ++ nl)
          ∧ msg_elements (stream_tool_call tool_name args msg) = msg_elements msg) as [Hc He].
  { unfold stream_tool_call. cbv zeta.
    set (m1 := stream_token (py "```json" ++ nl) _).
    cbn [stream_token msg_content msg_elements].
    destruct (stream_chars_content (json_dumps args) m1) as [Hc He].
    rewrite Hc, He. subst m1. cbn [stream_token msg_content msg_elements].
    by rewrite <- !app_assoc. }
  split_and!; [exact Hc | exact He |]. rewrite Hc. by apply prefix_app_r.
Qed.

End Streaming.

Section Turns.
Context `{Frontend}.

(** The answer the walk keeps is the last the transcript offers. *)
Lemma foldl_walk_message_final (messages : list message) :
  ∀ st,
    final_response (foldl walk_message st messages)
    = default (final_response st) (last (omap final_of messages)).
Proof.
  induction messages as [|m messages IH]; intros st; [reflexivity|].
  cbn [foldl omap list_omap]. rewrite IH.
  destruct m as [content|[|c content] [|tc tcs]|name content|];
    cbn [walk_message final_of final_response]; try reflexivity.
  - destruct (walk_call_calls tcs (walk_call st tc)) as [_ Hf].
    cbn [foldl]. by rewrite Hf.
  - rewrite last_cons. by destruct (last (omap final_of messages)).
  - destruct (walk_call_calls tcs (walk_call st tc)) as [_ Hf].
    cbn [foldl]. by rewrite Hf.
Qed.

Lemma walk_final_response (messages : list message) :
  final_response (walk messages) = default [] (last (omap final_of messages)).
Proof. unfold walk. by rewrite foldl_walk_message_final. Qed.

(** X14. When the agent answers, [main] appends exactly one record to the
    history: its tools are the names of all the tool calls of the transcript,
    in order ("unknown" for a call without a name), and its answer is the
    text of the last [AIMessage] of the transcript that has a text and no
    tool call (the empty text when there is none; the text of a message that
    also carries tool calls is never the answer).  The user is sent an empty
    message first and then this answer, and the agent of the session is
    kept. *)
Theorem main_record (now user_message : pystr) (s : session)
    (invoke : pystr → res (list message)) (messages : list message) :
  agent s = Some invoke →
  invoke user_message = Ok messages →
  let record :=
    {| timestamp := now; user := user_message;
       assistant := default [] (last (omap final_of messages));
       tools_used := call_name <$> transcript_calls messages |} in
  conversation_history (served_session (main now s user_message))
  = Some (default [] (conversation_history s) ++ [record])
  ∧ agent (served_session (main now s user_message)) = agent s
  ∧ sent (main now s user_message)
    = [(py "Assistant", []); (py "Assistant", assistant record)].
Proof.
  intros Hagent Hinvoke record. unfold main. rewrite Hagent, Hinvoke.
  cbn [served_session sent conversation_history agent].
  destruct (stream_chars_content (final_response (walk messages))
              {| msg_content := []; msg_elements := None |}) as [Hc _].
  rewrite Hc. cbn [msg_content app].
  subst record. cbn [assistant].
  by rewrite walk_final_response, walk_tool_calls_made.
Qed.

(** X15. Over a whole chat, whatever the agent does at each message, the
    history of the session only grows, the agent is kept, and the records
    added are exactly those of the messages the agent answered, in order,
    each with the time and the text of its message; a message met without an
    agent, or on which the agent raises, leaves no record. *)
Theorem serve_history (s : session) (turns : list (pystr * pystr)) :
  let record (entry : pystr * pystr) : option turn :=
    match agent s with
    | Some invoke =>
        match invoke entry.2 with
        | Ok messages =>
            Some {| timestamp := entry.1; user := entry.2;
                    assistant := default [] (last (omap final_of messages));
                    tools_used := call_name <$> transcript_calls messages |}
        | Raise _ => None
        end
    | None => None
    end in
  agent (serve s turns) = agent s
  ∧ default [] (conversation_history (serve s turns))
    = default [] (conversation_history s) ++ omap record turns
  ∧ default [] (conversation_history s)
      `prefix_of` default [] (conversation_history (serve s turns))
  ∧ length (default [] (conversation_history (serve s turns)))
    ≤ length (default [] (conversation_history s)) + length turns.
Proof.
  intros record.
  assert (agent (serve s turns) = agent s
          ∧ default [] (conversation_history (serve s turns))
            = default [] (conversation_history s) ++ omap record turns) as [Ha Hh].
  { subst record. revert s. induction turns as [|[now user_message] turns IH]; intros s.
    - split; [reflexivity|]. cbn [omap list_omap]. by rewrite app_nil_r.
    - unfold serve. cbn [foldl fst snd]. fold (serve (served_session (main now s user_message)) turns).
      destruct (IH (served_session (main now s user_message))) as [Ha Hh].
      rewrite Ha, Hh. clear IH Ha Hh.
      cbn [omap list_omap fst snd]. unfold main.
      destruct (agent s) as [invoke|] eqn:Hagent; cbn [served_session agent]; [|by rewrite Hagent].
      destruct (invoke user_message) as [messages|e] eqn:Hinvoke;
        cbn [served_session agent conversation_history default]; [|by rewrite Hagent].
      rewrite walk_final_response, walk_tool_calls_made. split; [done|].
      unfold id. by rewrite <- app_assoc. }
  split_and!; [exact Ha | exact Hh | |].
  - rewrite Hh. by apply prefix_app_r.
  - rewrite Hh, length_app.
    assert (length (omap record turns) ≤ length turns); [|lia].
    clear. induction turns as [|entry turns IH]; [done|].
    cbn [omap list_omap length]. destruct (record entry); cbn [length]; lia.
Qed.

End Turns.

(** X16. [get_llm] returns [None] exactly for the providers that are not
    keys of [PROVIDER_MODELS].  For a key of the table it calls the
    constructor of the provider's class with the model name as it is given
    (it is not looked up in the provider's list), temperature 0, streaming on
    and the provider's key of the environment, and its outcome is the
    constructor's: the model built, or the exception raised (as when the key
    is unset and the constructor insists on one). *)
Theorem get_llm_providers `{Models} (env : environment) (provider model : pystr) :
  (provider ∉ PROVIDER_MODELS.*1 ↔ get_llm env provider model = Ok None)
  ∧ (provider ∈ PROVIDER_MODELS.*1 ↔
       ∃ class key,
         (provider, (class, key)) ∈ provider_classes env
         ∧ get_llm env provider model
           = (llm ← construct {| llm_class := class; llm_model := model;
                                 llm_temperature := 0; llm_streaming := true;
                                 llm_api_key := key |};
              Ok (Some llm))).
Proof.
  unfold PROVIDER_MODELS, provider_classes, get_llm. cbn [fmap list_fmap fst].
  destruct (decide (provider = py "OpenAI")) as [E1|N1].
  { split; split.
    - intros Hnot. destruct Hnot. rewrite E1. apply list_elem_of_here.
    - intros Hnone. by destruct (construct _).
    - intros _. exists ChatOpenAI, (OPENAI_API_KEY env). split; [|reflexivity].
      rewrite E1. apply list_elem_of_here.
    - intros _. rewrite E1. apply list_elem_of_here. }
  destruct (decide (provider = py "Anthropic")) as [E2|N2].
  { split; split.
    - intros Hnot. destruct Hnot. rewrite E2. apply list_elem_of_further, list_elem_of_here.
    - intros Hnone. by destruct (construct _).
    - intros _. exists ChatAnthropic, (ANTHROPIC_API_KEY env). split; [|reflexivity].
      rewrite E2. apply list_elem_of_further, list_elem_of_here.
    - intros _. rewrite E2. apply list_elem_of_further, list_elem_of_here. }
  destruct (decide (provider = py "Groq")) as [E3|N3].
  { split; split.
    - intros Hnot. destruct Hnot. rewrite E3.
      do 2 apply list_elem_of_further. apply list_elem_of_here.
    - intros Hnone. by destruct (construct _).
    - intros _. exists ChatGroq, (GROQ_API_KEY env). split; [|reflexivity].
      rewrite E3. do 2 apply list_elem_of_further. apply list_elem_of_here.
    - intros _. rewrite E3. do 2 apply list_elem_of_further. apply list_elem_of_here. }
  assert (provider ∉ [py "OpenAI"; py "Anthropic"; py "Groq"]) as Hnot.
  { intros Hin. repeat (apply elem_of_cons in Hin as [Hin|Hin]; [done|]).
    by apply elem_of_nil in Hin. }
  split; split; try done.
  intros (class & key & Hin & _). exfalso.
  repeat (apply elem_of_cons in Hin as [Hin|Hin]; [by injection Hin|]).
  by apply elem_of_nil in Hin.
Qed.

Lemma main_record_witness :
  let call name := @Build_tool_call example_frontend name (Some tt) in
  let messages :=
    [@HumanMessage example_frontend (py "Che tempo fa a Roma?");
     AIMessage (py "Controllo le previsioni.") [call (Some (py "get_forecast")); call None];
     ToolMessage (Some (py "get_forecast")) (py "Sunny");
     AIMessage (py "Sole a Roma.") [];
     ToolMessage None (py "Parchi")] in
  let s := {| agent := Some (λ _, Ok messages); conversation_history := None |} in
  let record :=
    {| timestamp := py "2025-01-01T10:00:00"; user := py "Che tempo fa a Roma?";
       assistant := default [] (last (omap final_of messages));
       tools_used := call_name <$> transcript_calls messages |} in
  conversation_history
    (served_session
       (@main example_frontend (py "2025-01-01T10:00:00") s (py "Che tempo fa a Roma?")))
  = Some (default [] (conversation_history s) ++ [record])
  ∧ agent
      (served_session
         (@main example_frontend (py "2025-01-01T10:00:00") s (py "Che tempo fa a Roma?")))
    = agent s
  ∧ sent (@main example_frontend (py "2025-01-01T10:00:00") s (py "Che tempo fa a Roma?"))
    = [(py "Assistant", []); (py "Assistant", assistant record)].
Proof.
  intros call messages s record.
  apply (@main_record example_frontend (py "2025-01-01T10:00:00")
           (py "Che tempo fa a Roma?") s (λ _, Ok messages) messages); reflexivity.
Defined.

(** * The weather class and the advice to stay indoors *)

(** X17. [suggest_activities] advises to stay indoors ("Al coperto
    consigliato", and the indoor category first) exactly when the text
    mentions rain or snow, or mentions a clear sky with a temperature above
    28, or mentions no clear sky with a temperature below 5.  So a clear sky
    at any temperature up to 28, a frost included, and a text without any of
    the terms at 5 degrees or more, a heat wave included, get the outdoor
    advice. *)
Theorem indoor_advice (weather_condition : pystr) (temperature : number) :
  prefer_indoor (classify_weather weather_condition temperature) = true ↔
    mentions_any rain_terms weather_condition
    ∨ mentions_any snow_terms weather_condition
    ∨ (mentions_any clear_terms weather_condition ∧ num_gtb temperature 28 = true)
    ∨ (¬ mentions_any clear_terms weather_condition ∧ num_ltb temperature 5 = true).
Proof.
  rewrite <- has_any_free, <- !has_any_mentions, classify_weather_cases.
  destruct (has_any rain_terms weather_condition); [by split; [left|]|].
  destruct (has_any snow_terms weather_condition); [by split; [right; left|]|].
  destruct (has_any clear_terms weather_condition).
  - destruct (num_gtb temperature 28); cbn [prefer_indoor].
    + split; [|done]. intros _. right. right. by left.
    + split; [done|]. intros [?|[?|[[_ ?]|[? _]]]]; done.
  - destruct (num_ltb temperature 5); [|destruct (num_ltb temperature 18)];
      cbn [prefer_indoor].
    + split; [|done]. intros _. right. right. by right.
    + split; [done|]. intros [?|[?|[[? _]|[_ ?]]]]; done.
    + split; [done|]. intros [?|[?|[[? _]|[_ ?]]]]; done.
Qed.
